(** * hugging-local-buddy: the setup-guide resolver, the setup form and the
      guide presenter

    A shallow embedding of the branching logic of the three TypeScript
    sources:

    - [analyzeRepository] and its inner [getLanguageConfig] (the page
      component that owns the mock analysis),
    - the form state of [SetupForm] (language change, validity, submit),
    - the clone command and [copyToClipboard] of [SetupGuide].

    JavaScript strings are modelled as [string]; every pattern the code
    searches for is ASCII, so working on bytes or on UTF-16 code units gives
    the same answers. *)

From Stdlib Require Import String Ascii List Bool ZArith Lia Sorted.
Import ListNotations.
Open Scope string_scope.

(* ------------------------------------------------------------------ *)
(** ** The JavaScript string and array primitives the sources use *)
(* ------------------------------------------------------------------ *)

Module Js.

(** The line feed written as a backslash-n escape in the sources. *)
Definition nl : string := String "010"%char EmptyString.

(** The double quote character, written escaped in the sources. *)
Definition dq : string := String "034"%char EmptyString.

(** Truthiness of a string value: only the empty string is falsy. *)
Definition truthy (s : string) : bool :=
  match s with
  | EmptyString => false
  | String _ _ => true
  end.

(** [a && b] on strings: the left operand when it is falsy, else the
    right one. *)
Definition and_ (a b : string) : string := if truthy a then b else a.

(** [a || b] where [a] may be undefined (the result of an optional
    chain): the left operand when it is truthy, else the right one. *)
Definition or_ (a : option string) (b : string) : string :=
  match a with
  | Some s => if truthy s then s else b
  | None => b
  end.

(** [s.startsWith(p)]. *)
Fixpoint startsWith (p s : string) : bool :=
  match p, s with
  | EmptyString, _ => true
  | String a p', String b s' => Ascii.eqb a b && startsWith p' s'
  | String _ _, EmptyString => false
  end.

(** [hay.includes(needle)]: [needle] occurs somewhere in [hay]. *)
Fixpoint includes (needle hay : string) : bool :=
  startsWith needle hay
  || match hay with
     | EmptyString => false
     | String _ hay' => includes needle hay'
     end.

(** [s.endsWith(p)]. *)
Fixpoint endsWith (p s : string) : bool :=
  String.eqb p s
  || match s with
     | EmptyString => false
     | String _ s' => endsWith p s'
     end.

(** Drop the first [n] characters. *)
Fixpoint drop (n : nat) (s : string) : string :=
  match n, s with
  | O, _ => s
  | S _, EmptyString => EmptyString
  | S n', String _ s' => drop n' s'
  end.

(** [s.replace(pat, rep)] with a string pattern: only the first
    occurrence of [pat] is replaced, wherever it is. *)
Fixpoint replace (pat rep s : string) : string :=
  if startsWith pat s then rep ++ drop (String.length pat) s
  else match s with
       | EmptyString => EmptyString
       | String c s' => String c (replace pat rep s')
       end.

(** [s.split(sep)] for a one-character separator; the result always has
    at least one element (the empty string splits into one empty
    segment). *)
Fixpoint split (sep : ascii) (s : string) : list string :=
  match s with
  | EmptyString => [EmptyString]
  | String c s' =>
      if Ascii.eqb c sep then EmptyString :: split sep s'
      else match split sep s' with
           | [] => [String c EmptyString]
           | seg :: segs => String c seg :: segs
           end
  end.

(** [arr.pop()] as a value: the last element, undefined on an empty
    array. *)
Fixpoint pop (arr : list string) : option string :=
  match arr with
  | [] => None
  | [x] => Some x
  | _ :: rest => pop rest
  end.

End Js.

(* ------------------------------------------------------------------ *)
(** ** Data model *)
(* ------------------------------------------------------------------ *)

(** [interface DeviceSpecs] (the same declaration in the page and in the
    form). *)
Record DeviceSpecs : Type := mkDeviceSpecs {
  language : string;
  version : string;
  os : string;
  gpu : string;
  ram : string;
  packageManager : string;
  docker : bool
}.

(** The object literal each branch of [getLanguageConfig] returns. *)
Module Config.
Record t : Type := mk {
  techStack : list string;
  venvCommand : string;
  installCommand : string;
  runCommand : string;
  accessUrl : string;
  envSetup : list string;
  troubleshooting : list string
}.
End Config.

(** One entry of [alternatives]; [url] is [null] for the Docker entry. *)
Record Alternative : Type := mkAlternative {
  name : string;
  description : string;
  url : option string
}.

(** [mockResult]: the spread of the language configuration followed by the
    four fields computed from [specs.language]. *)
Record AnalysisResult : Type := mkAnalysisResult {
  techStack : list string;
  venvCommand : string;
  installCommand : string;
  runCommand : string;
  accessUrl : string;
  envSetup : list string;
  troubleshooting : list string;
  compatibility : string;
  estimatedTime : string;
  modelSize : string;
  alternatives : list Alternative
}.

(* ------------------------------------------------------------------ *)
(** ** A small monad for [async] functions

    An asynchronous computation is run from a clock value (milliseconds);
    it ends at a later clock value, fulfilled with a value or rejected
    with a reason. *)
(* ------------------------------------------------------------------ *)

Module Async.

Inductive outcome (A : Type) : Type :=
| Fulfilled (value : A)
| Rejected (reason : string).
Arguments Fulfilled {A} value.
Arguments Rejected {A} reason.

Definition t (A : Type) : Type := Z -> Z * outcome A.

Definition ret {A : Type} (v : A) : t A := fun now => (now, Fulfilled v).

Definition throw {A : Type} (reason : string) : t A :=
  fun now => (now, Rejected reason).

Definition bind {A B : Type} (m : t A) (k : A -> t B) : t B :=
  fun now =>
    match m now with
    | (now', Fulfilled v) => k v now'
    | (now', Rejected r) => (now', Rejected r)
    end.

(** [await new Promise(resolve => setTimeout(resolve, ms))]. *)
Definition sleep (ms : Z) : t unit := fun now => ((now + ms)%Z, Fulfilled tt).

(** The computation, started at any time, ends fulfilled with [v]. *)
Definition fulfils {A : Type} (m : t A) (v : A) : Prop :=
  forall now, exists later, m now = (later, Fulfilled v).

End Async.

Notation "x <- m ;; k" := (Async.bind m (fun x => k))
  (at level 61, m at next level, right associativity).

(* ------------------------------------------------------------------ *)
(** ** ConfigResolver: [analyzeRepository] *)
(* ------------------------------------------------------------------ *)

Import Js.

(** The five cases of the [switch] on [specs.language]. *)
Definition definedLanguages : list string :=
  ["python"; "javascript"; "r"; "julia"; "rust"].

Definition isDefinedLanguage (l : string) : bool :=
  existsb (String.eqb l) definedLanguages.

(** The [default:] branch of the switch. *)
Definition defaultConfig : Config.t :=
  Config.mk
    ["Generic ML Framework"]
    "# Environment setup varies by language"
    "# Install language-specific dependencies"
    "# Run application"
    "http://localhost:8000"
    ["Configure your development environment"]
    ["Check documentation for language-specific issues"].

(** The inner function [getLanguageConfig]; it closes over [specs]. *)
Definition getLanguageConfig (specs : DeviceSpecs) : Config.t :=
  let lang := language specs in
  if lang =? "python" then
    Config.mk
      ["Transformers"; "Gradio"; "PyTorch"; "NumPy"]
      (if packageManager specs =? "conda"
       then "conda create -n hf-app python=" ++ version specs ++ nl
            ++ "conda activate hf-app"
       else "python -m venv hf-app" ++ nl
            ++ "source hf-app/bin/activate  # On Windows: hf-app\Scripts\activate")
      (if packageManager specs =? "conda"
       then "conda install pytorch transformers gradio -c pytorch -c huggingface"
       else "pip install torch transformers gradio accelerate")
      "python app.py"
      "http://localhost:7860"
      ["Ensure you have at least 4GB of free disk space for models";
       "Set CUDA_VISIBLE_DEVICES if you have multiple GPUs";
       "Configure Hugging Face token if using gated models";
       "Install Git LFS for large model files if needed"]
      ["If CUDA out of memory, try reducing batch size or model precision";
       "For slow downloads, consider using a mirror or cache";
       "On Windows, you might need Visual Studio Build Tools";
       "For M1/M2 Macs, use MPS backend for acceleration"]
  else if lang =? "javascript" then
    Config.mk
      ["Transformers.js"; "Node.js"; "Express"; "TensorFlow.js"]
      (if packageManager specs =? "yarn" then "yarn init -y" else "npm init -y")
      (if packageManager specs =? "yarn"
       then "yarn add @huggingface/transformers @huggingface/hub express"
       else "npm install @huggingface/transformers @huggingface/hub express")
      "node server.js"
      "http://localhost:3000"
      ["Ensure Node.js " ++ version specs ++ " is installed";
       "Install dependencies with your package manager";
       "Configure environment variables in .env file";
       "Set up CORS if accessing from browser"]
      ["If WebGPU not available, models will fallback to CPU";
       "Large models may require significant RAM";
       "Use model quantization for better performance";
       "Check browser compatibility for WebGL/WebGPU"]
  else if lang =? "r" then
    Config.mk
      ["reticulate"; "torch"; "transformers (via Python)"; "Shiny"]
      ("# R environment setup" ++ nl ++ "install.packages('renv')" ++ nl
       ++ "renv::init()")
      ("install.packages(c(" ++ dq ++ "reticulate" ++ dq ++ ", " ++ dq
       ++ "shiny" ++ dq ++ "))" ++ nl ++ "reticulate::py_install(c(" ++ dq
       ++ "torch" ++ dq ++ ", " ++ dq ++ "transformers" ++ dq ++ "))")
      "Rscript app.R"
      "http://localhost:3838"
      ["Install R and required packages";
       "Configure reticulate to use Python environment";
       "Install Python dependencies via reticulate";
       "Set up Shiny server for web interface"]
      ["Ensure Python and R can communicate via reticulate";
       "Install system dependencies for torch compilation";
       "Configure PATH variables for Python/R integration";
       "Use virtual environments to avoid conflicts"]
  else if lang =? "julia" then
    Config.mk
      ["MLJ.jl"; "Transformers.jl"; "Flux.jl"; "PlutoUI"]
      ("julia --project=." ++ nl ++ "using Pkg" ++ nl ++ "Pkg.activate(" ++ dq
       ++ "." ++ dq ++ ")")
      ("Pkg.add([" ++ dq ++ "MLJ" ++ dq ++ ", " ++ dq ++ "Transformers" ++ dq
       ++ ", " ++ dq ++ "Flux" ++ dq ++ ", " ++ dq ++ "PlutoUI" ++ dq ++ "])")
      "julia app.jl"
      "http://localhost:8000"
      ["Ensure Julia " ++ version specs ++ " is installed";
       "Create and activate project environment";
       "Install required Julia packages";
       "Configure CUDA.jl for GPU support if available"]
      ["Precompile packages to reduce startup time";
       "Use BinaryBuilder.jl for system dependencies";
       "Configure JULIA_NUM_THREADS for parallelization";
       "Check CUDA installation for GPU acceleration"]
  else if lang =? "rust" then
    Config.mk
      ["Candle"; "Tokenizers"; "Axum"; "Serde"]
      ("cargo init hf-app" ++ nl ++ "cd hf-app")
      "cargo add candle-core candle-nn tokenizers axum serde"
      "cargo run"
      "http://localhost:8080"
      ["Ensure Rust " ++ version specs ++ " is installed";
       "Initialize Cargo project";
       "Add required dependencies to Cargo.toml";
       "Configure features for CUDA support if needed"]
      ["Compile with --release flag for better performance";
       "Install CUDA toolkit for GPU support";
       "Use cross-compilation for different targets";
       "Enable LTO for smaller binaries"]
  else defaultConfig.

(** The object literal [mockResult]. *)
Definition mockResult (specs : DeviceSpecs) : AnalysisResult :=
  let config := getLanguageConfig specs in
  let isPython := language specs =? "python" in
  {| techStack := Config.techStack config;
     venvCommand := Config.venvCommand config;
     installCommand := Config.installCommand config;
     runCommand := Config.runCommand config;
     accessUrl := Config.accessUrl config;
     envSetup := Config.envSetup config;
     troubleshooting := Config.troubleshooting config;
     compatibility := "95%";
     estimatedTime :=
       if language specs =? "rust" then "10-15 min"
       else if language specs =? "julia" then "8-12 min"
       else "5-10 min";
     modelSize :=
       if language specs =? "javascript" then "200 MB" else "1.2 GB";
     alternatives :=
       [ {| name := if isPython then "Google Colab" else "CodeSandbox";
            description :=
              if isPython then "Run in the cloud with free GPU access"
              else "Run in browser environment";
            url := Some (if isPython then "https://colab.research.google.com"
                         else "https://codesandbox.io") |};
         {| name := "Hugging Face Spaces";
            description := "Deploy directly on Hugging Face infrastructure";
            url := Some "https://huggingface.co/spaces" |};
         {| name := "Docker Container";
            description := "Use pre-built container with all dependencies";
            url := None |} ] |}.

(** [analyzeRepository]: wait two seconds, then return [mockResult]. *)
Definition analyzeRepository (repoUrl : string) (specs : DeviceSpecs)
  : Async.t AnalysisResult :=
  _ <- Async.sleep 2000%Z ;;
  Async.ret (mockResult specs).


(* ------------------------------------------------------------------ *)
(** ** SetupForm: the form state and its handlers *)
(* ------------------------------------------------------------------ *)

Module SetupForm.

(** The two [useState] cells of the component. *)
Record State : Type := mkState {
  repoUrl : string;
  specs : DeviceSpecs
}.

(** The initial values passed to [useState]. *)
Definition initial : State :=
  {| repoUrl := EmptyString;
     specs := {| language := EmptyString; version := EmptyString;
                 os := EmptyString; gpu := "none"; ram := EmptyString;
                 packageManager := EmptyString; docker := false |} |}.

(** [onChange] of the URL input: [setRepoUrl(e.target.value)]. *)
Definition onRepoUrlChange (value : string) (st : State) : State :=
  {| repoUrl := value; specs := specs st |}.

(** [onValueChange] of the language select:
    [setSpecs({ ...specs, language: value, version: , packageManager: })]
    with both of the last two set to the empty string. *)
Definition onLanguageChange (value : string) (st : State) : State :=
  let s := specs st in
  {| repoUrl := repoUrl st;
     specs := {| language := value; version := EmptyString; os := os s;
                 gpu := gpu s; ram := ram s; packageManager := EmptyString;
                 docker := docker s |} |}.

(** [setSpecs({ ...specs, version: value })]. *)
Definition onVersionChange (value : string) (st : State) : State :=
  let s := specs st in
  {| repoUrl := repoUrl st;
     specs := {| language := language s; version := value; os := os s;
                 gpu := gpu s; ram := ram s;
                 packageManager := packageManager s; docker := docker s |} |}.

(** [setSpecs({ ...specs, packageManager: value })]. *)
Definition onPackageManagerChange (value : string) (st : State) : State :=
  let s := specs st in
  {| repoUrl := repoUrl st;
     specs := {| language := language s; version := version s; os := os s;
                 gpu := gpu s; ram := ram s; packageManager := value;
                 docker := docker s |} |}.

(** The package-manager choices offered for the selected language, as
    (value, label) pairs. *)
Definition getPackageManagerOptions (st : State) : list (string * string) :=
  let lang := language (specs st) in
  if lang =? "python" then
    [("pip", "pip"); ("conda", "conda"); ("mamba", "mamba");
     ("poetry", "poetry")]
  else if lang =? "javascript" then
    [("npm", "npm"); ("yarn", "yarn"); ("pnpm", "pnpm"); ("bun", "bun")]
  else if lang =? "r" then
    [("install.packages", "install.packages"); ("pak", "pak");
     ("renv", "renv")]
  else if lang =? "julia" then [("pkg", "Pkg.jl")]
  else if lang =? "rust" then [("cargo", "cargo")]
  else [("default", "Default package manager")].

(** The version choices offered for the selected language. *)
Definition getVersionOptions (st : State) : list (string * string) :=
  let lang := language (specs st) in
  if lang =? "python" then
    [("3.12", "Python 3.12"); ("3.11", "Python 3.11");
     ("3.10", "Python 3.10"); ("3.9", "Python 3.9"); ("3.8", "Python 3.8")]
  else if lang =? "javascript" then
    [("20", "Node.js 20 LTS"); ("18", "Node.js 18 LTS"); ("16", "Node.js 16")]
  else if lang =? "r" then [("4.3", "R 4.3"); ("4.2", "R 4.2"); ("4.1", "R 4.1")]
  else if lang =? "julia" then
    [("1.9", "Julia 1.9"); ("1.8", "Julia 1.8"); ("1.7", "Julia 1.7")]
  else if lang =? "rust" then
    [("1.75", "Rust 1.75"); ("1.74", "Rust 1.74"); ("stable", "Rust Stable")]
  else [].

(** [repoUrl && specs.language && specs.version && specs.os && specs.ram]:
    a chain of [&&], left associative; its value is a string. *)
Definition requiredChain (st : State) : string :=
  let s := specs st in
  and_ (and_ (and_ (and_ (repoUrl st) (language s)) (version s)) (os s)) (ram s).

(** [const isFormValid = ...]. *)
Definition isFormValid (st : State) : string := requiredChain st.

(** The [disabled] attribute of the submit button:
    [!isFormValid || isLoading]. *)
Definition submitDisabled (st : State) (isLoading : bool) : bool :=
  negb (truthy (isFormValid st)) || isLoading.

(** The five required fields are all set: none is the empty string. *)
Definition allSet (st : State) : Prop :=
  repoUrl st <> EmptyString /\
  language (specs st) <> EmptyString /\
  version (specs st) <> EmptyString /\
  os (specs st) <> EmptyString /\
  ram (specs st) <> EmptyString.

(** What a run of [handleSubmit] does to the outside. *)
Inductive Effect : Type :=
| PreventDefault
| OnAnalyze (url : string) (s : DeviceSpecs).

(** [handleSubmit]: [e.preventDefault()], then [onAnalyze(repoUrl, specs)]
    under the guard. *)
Definition handleSubmit (st : State) : list Effect :=
  PreventDefault
  :: (if truthy (requiredChain st) then [OnAnalyze (repoUrl st) (specs st)]
      else []).

(** Whether a run of [handleSubmit] calls the analyzer. *)
Definition invokesAnalyzer (effects : list Effect) : bool :=
  existsb (fun e => match e with OnAnalyze _ _ => true | PreventDefault => false end)
          effects.

(** [setSpecs({ ...specs, os: value })]. *)
Definition onOsChange (value : string) (st : State) : State :=
  let s := specs st in
  {| repoUrl := repoUrl st;
     specs := {| language := language s; version := version s; os := value;
                 gpu := gpu s; ram := ram s;
                 packageManager := packageManager s; docker := docker s |} |}.

(** [setSpecs({ ...specs, gpu: value })]. *)
Definition onGpuChange (value : string) (st : State) : State :=
  let s := specs st in
  {| repoUrl := repoUrl st;
     specs := {| language := language s; version := version s; os := os s;
                 gpu := value; ram := ram s;
                 packageManager := packageManager s; docker := docker s |} |}.

(** [setSpecs({ ...specs, ram: value })]. *)
Definition onRamChange (value : string) (st : State) : State :=
  let s := specs st in
  {| repoUrl := repoUrl st;
     specs := {| language := language s; version := version s; os := os s;
                 gpu := gpu s; ram := value;
                 packageManager := packageManager s; docker := docker s |} |}.

(** [specs.docker.toString()], the value shown by the Docker select. *)
Definition dockerSelectValue (st : State) : string :=
  if docker (specs st) then "true" else "false".

(** [setSpecs({ ...specs, docker: value === "true" })], the string being
    the value of the chosen item. *)
Definition onDockerChange (value : string) (st : State) : State :=
  let s := specs st in
  {| repoUrl := repoUrl st;
     specs := {| language := language s; version := version s; os := os s;
                 gpu := gpu s; ram := ram s;
                 packageManager := packageManager s;
                 docker := value =? "true" |} |}.

(** [disabled={!specs.language}] of the version and package-manager
    selects. *)
Definition dependentSelectDisabled (st : State) : bool :=
  negb (truthy (language (specs st))).

End SetupForm.

(* ------------------------------------------------------------------ *)
(** ** SetupGuide: the clone command and [copyToClipboard] *)
(* ------------------------------------------------------------------ *)

Module SetupGuide.

(** [repoUrl.split('/').pop()?.replace('.git', '') || 'repo']. *)
Definition dirName (repoUrl : string) : string :=
  or_ (option_map (replace ".git" EmptyString) (pop (split "/"%char repoUrl)))
      "repo".

(** The [command] of the Clone Repository block. *)
Definition cloneCommand (repoUrl : string) : string :=
  "git clone " ++ repoUrl ++ nl ++ "cd " ++ dirName repoUrl.

(** The argument of [toast]. *)
Record Toast : Type := mkToast {
  title : string;
  description : string;
  variant : option string
}.

(** The callbacks this component hands to [setTimeout]; there is one,
    [() => setCopiedCommand(null)]. *)
Inductive TimerCallback : Type :=
| ClearCopied.

(** The part of the world [copyToClipboard] reads and writes: the clock of
    the event loop (milliseconds), the [copiedCommand] state cell, the
    pending timers with their due times, the toasts emitted so far (oldest
    first) and the text held by the clipboard. *)
Record View : Type := mkView {
  clock : Z;
  copiedCommand : option string;
  timers : list (Z * TimerCallback);
  toasts : list Toast;
  clipboardText : option string
}.

(** The view the component starts from. *)
Definition initialView : View :=
  {| clock := 0%Z; copiedCommand := None; timers := []; toasts := [];
     clipboardText := None |}.

Definition setCopiedCommand (c : option string) (v : View) : View :=
  {| clock := clock v; copiedCommand := c; timers := timers v;
     toasts := toasts v; clipboardText := clipboardText v |}.

Definition toast (t : Toast) (v : View) : View :=
  {| clock := clock v; copiedCommand := copiedCommand v; timers := timers v;
     toasts := toasts v ++ [t]; clipboardText := clipboardText v |}.

Definition setTimeout (cb : TimerCallback) (ms : Z) (v : View) : View :=
  {| clock := clock v; copiedCommand := copiedCommand v;
     timers := timers v ++ [((clock v + ms)%Z, cb)];
     toasts := toasts v; clipboardText := clipboardText v |}.

Definition setClipboard (text : string) (v : View) : View :=
  {| clock := clock v; copiedCommand := copiedCommand v; timers := timers v;
     toasts := toasts v; clipboardText := Some text |}.

(** The result of [navigator.clipboard.writeText]: the promise resolves or
    rejects. *)
Inductive WriteResult : Type :=
| WriteOk
| WriteErr (err : string).

Definition copiedToast (commandType : string) : Toast :=
  {| title := "Copied to clipboard";
     description := commandType ++ " command copied successfully";
     variant := None |}.

Definition failedToast : Toast :=
  {| title := "Failed to copy";
     description := "Could not copy to clipboard";
     variant := Some "destructive" |}.

(** The fixed time the copied mark stays, in milliseconds. *)
Definition copiedDuration : Z := 2000%Z.

(** [copyToClipboard], the clipboard being a capability [writeText] that
    answers per call. *)
Definition copyToClipboard (writeText : string -> WriteResult)
    (text commandType : string) (v : View) : View :=
  match writeText text with
  | WriteOk =>
      let v := setClipboard text v in
      let v := setCopiedCommand (Some commandType) v in
      let v := toast (copiedToast commandType) v in
      setTimeout ClearCopied copiedDuration v
  | WriteErr _ => toast failedToast v
  end.

Definition runCallback (cb : TimerCallback) (v : View) : View :=
  match cb with
  | ClearCopied => setCopiedCommand None v
  end.

Definition isDue (t : Z) (p : Z * TimerCallback) : bool := (fst p <=? t)%Z.

(** Let [dt] milliseconds pass with no other event: the timers that are due
    by then run, in the order they were set (every timer of this component
    has the same delay, so that is the order of their due times), and
    leave the queue. *)
Definition advance (dt : Z) (v : View) : View :=
  let t := (clock v + dt)%Z in
  fold_left (fun acc p => runCallback (snd p) acc)
            (filter (isDue t) (timers v))
            {| clock := t; copiedCommand := copiedCommand v;
               timers := filter (fun p => negb (isDue t p)) (timers v);
               toasts := toasts v; clipboardText := clipboardText v |}.

(** The render test [copiedCommand === title] of a code block. *)
Definition showsCopied (v : View) (title : string) : bool :=
  match copiedCommand v with
  | Some c => c =? title
  | None => false
  end.

(** The four [CodeBlock]s of the guide, as (title, command) pairs, in the
    order they are rendered. *)
Definition codeBlocks (repoUrl : string) (r : AnalysisResult)
  : list (string * string) :=
  [("Clone Repository", cloneCommand repoUrl);
   ("Create Virtual Environment", venvCommand r);
   ("Install Dependencies", installCommand r);
   ("Start Application", runCommand r)].

(** [onClick={() => copyToClipboard(command, title)}] of a block. *)
Definition clickCopy (writeText : string -> WriteResult)
    (block : string * string) (v : View) : View :=
  copyToClipboard writeText (snd block) (fst block) v.

(** [alt.url && <a ...>]: an alternative is rendered with a link when its
    url is neither null nor empty. *)
Definition hasLink (alt : Alternative) : bool :=
  match url alt with
  | Some u => truthy u
  | None => false
  end.

(** What happens to the guide: a click on a copy button, with the answer
    the clipboard gives to that call, or time passing. *)
Inductive GuideEvent : Type :=
| Click (outcome : WriteResult) (text label : string)
| Elapse (ms : N).

Definition step (e : GuideEvent) (v : View) : View :=
  match e with
  | Click outcome text label => copyToClipboard (fun _ => outcome) text label v
  | Elapse ms => advance (Z.of_N ms) v
  end.

(** The view after a sequence of events, oldest first. *)
Definition run (events : list GuideEvent) (v : View) : View :=
  fold_left (fun acc e => step e acc) events v.

Definition isClick (e : GuideEvent) : bool :=
  match e with
  | Click _ _ _ => true
  | Elapse _ => false
  end.

End SetupGuide.

(* ------------------------------------------------------------------ *)
(** ** The earlier revision of the resolver

    The first revision of the page had no language choice: its
    [DeviceSpecs] carried a [python] version and its [analyzeRepository]
    returned one fixed python bundle. *)
(* ------------------------------------------------------------------ *)

Module Legacy.

Record DeviceSpecs : Type := mkDeviceSpecs {
  os : string;
  python : string;
  gpu : string;
  ram : string;
  packageManager : string;
  docker : bool
}.

(** The object literal [mockResult] of the first revision. *)
Definition mockResult (specs : DeviceSpecs) : AnalysisResult :=
  {| techStack := ["Transformers"; "Gradio"; "PyTorch"; "NumPy"];
     compatibility := "95%";
     estimatedTime := "5-10 min";
     modelSize := "1.2 GB";
     venvCommand :=
       if packageManager specs =? "conda"
       then "conda create -n hf-app python=3.10" ++ nl ++ "conda activate hf-app"
       else "python -m venv hf-app" ++ nl
            ++ "source hf-app/bin/activate  # On Windows: hf-app\Scripts\activate";
     installCommand :=
       if packageManager specs =? "conda"
       then "conda install pytorch transformers gradio -c pytorch -c huggingface"
       else "pip install torch transformers gradio accelerate";
     runCommand := "python app.py";
     accessUrl := "http://localhost:7860";
     envSetup :=
       ["Ensure you have at least 4GB of free disk space for models";
        "Set CUDA_VISIBLE_DEVICES if you have multiple GPUs";
        "Configure Hugging Face token if using gated models";
        "Install Git LFS for large model files if needed"];
     troubleshooting :=
       ["If CUDA out of memory, try reducing batch size or model precision";
        "For slow downloads, consider using a mirror or cache";
        "On Windows, you might need Visual Studio Build Tools";
        "For M1/M2 Macs, use MPS backend for acceleration"];
     alternatives :=
       [ {| name := "Google Colab";
            description := "Run in the cloud with free GPU access";
            url := Some "https://colab.research.google.com" |};
         {| name := "Hugging Face Spaces";
            description := "Deploy directly on Hugging Face infrastructure";
            url := Some "https://huggingface.co/spaces" |};
         {| name := "Docker Container";
            description := "Use pre-built container with all dependencies";
            url := None |} ] |}.

(** [analyzeRepository] of the first revision. *)
Definition analyzeRepository (repoUrl : string) (specs : DeviceSpecs)
  : Async.t AnalysisResult :=
  _ <- Async.sleep 2000%Z ;;
  Async.ret (mockResult specs).

End Legacy.

(** The specs of the current revision that stand for specs of the first
    one: the language is python and the version is the python version. *)
Definition upgradeSpecs (old : Legacy.DeviceSpecs) : DeviceSpecs :=
  {| language := "python"; version := Legacy.python old;
     os := Legacy.os old; gpu := Legacy.gpu old; ram := Legacy.ram old;
     packageManager := Legacy.packageManager old;
     docker := Legacy.docker old |}.

(* ------------------------------------------------------------------ *)
(** ** Index: the page that owns the form and the guide *)
(* ------------------------------------------------------------------ *)

Module Index.

(** The three [useState] cells of the page, and what it has written with
    [console.error]. *)
Record Page : Type := mkPage {
  analysisResult : option AnalysisResult;
  currentRepo : string;
  isLoading : bool;
  consoleErrors : list string
}.

Definition initialPage : Page :=
  {| analysisResult := None; currentRepo := EmptyString; isLoading := false;
     consoleErrors := [] |}.

Definition setAnalysisResult (r : option AnalysisResult) (p : Page) : Page :=
  {| analysisResult := r; currentRepo := currentRepo p;
     isLoading := isLoading p; consoleErrors := consoleErrors p |}.

Definition setCurrentRepo (u : string) (p : Page) : Page :=
  {| analysisResult := analysisResult p; currentRepo := u;
     isLoading := isLoading p; consoleErrors := consoleErrors p |}.

Definition setIsLoading (b : bool) (p : Page) : Page :=
  {| analysisResult := analysisResult p; currentRepo := currentRepo p;
     isLoading := b; consoleErrors := consoleErrors p |}.

Definition consoleError (reason : string) (p : Page) : Page :=
  {| analysisResult := analysisResult p; currentRepo := currentRepo p;
     isLoading := isLoading p;
     consoleErrors := consoleErrors p ++ [reason] |}.

(** The page while [handleAnalyze] is suspended at its [await]: the two
    setters before the [try] have run. *)
Definition handleAnalyzePending (repoUrl : string) (p : Page) : Page :=
  setCurrentRepo repoUrl (setIsLoading true p).

(** [handleAnalyze] over the analyzer it awaits: the [try] stores the
    result, the [catch] logs the reason, the [finally] clears the loading
    flag. Returns the page and the clock when the handler is done. *)
Definition handleAnalyzeWith
    (analyze : string -> DeviceSpecs -> Async.t AnalysisResult)
    (repoUrl : string) (specs : DeviceSpecs) (p : Page) (now : Z) : Page * Z :=
  let p := handleAnalyzePending repoUrl p in
  match analyze repoUrl specs now with
  | (later, Async.Fulfilled result) =>
      (setIsLoading false (setAnalysisResult (Some result) p), later)
  | (later, Async.Rejected reason) =>
      (setIsLoading false (consoleError reason p), later)
  end.

(** [handleAnalyze] as the page defines it, awaiting [analyzeRepository]. *)
Definition handleAnalyze : string -> DeviceSpecs -> Page -> Z -> Page * Z :=
  handleAnalyzeWith analyzeRepository.

(** [handleNewAnalysis]. *)
Definition handleNewAnalysis (p : Page) : Page :=
  setCurrentRepo EmptyString (setAnalysisResult None p).

(** The render test [!analysisResult]: the form is shown when there is no
    result, the guide otherwise. *)
Definition showsGuide (p : Page) : bool :=
  match analysisResult p with
  | Some _ => true
  | None => false
  end.

(** [isLoading &&] under the form: the spinner card. *)
Definition showsSpinner (p : Page) : bool := negb (showsGuide p) && isLoading p.

(** The code blocks on screen: those of
    [<SetupGuide repoUrl={currentRepo} analysisResult={analysisResult} />]
    when the guide is shown. *)
Definition guideBlocks (p : Page) : list (string * string) :=
  match analysisResult p with
  | Some r => SetupGuide.codeBlocks (currentRepo p) r
  | None => []
  end.

(** [<SetupForm onAnalyze={handleAnalyze} ... />]: what the effects of a
    run of the form's [handleSubmit] do to the page. *)
Definition runEffect (e : SetupForm.Effect) (pt : Page * Z) : Page * Z :=
  match e with
  | SetupForm.PreventDefault => pt
  | SetupForm.OnAnalyze u s => handleAnalyze u s (fst pt) (snd pt)
  end.

(** A submit of the form in state [st], followed through to the end of
    the analysis it starts (if any). *)
Definition onFormSubmit (st : SetupForm.State) (p : Page) (now : Z) : Page * Z :=
  fold_left (fun pt e => runEffect e pt) (SetupForm.handleSubmit st) (p, now).

End Index.

(* ------------------------------------------------------------------ *)
(** ** Readings of the specification's words

    These definitions are not in the sources: they say what the
    specification's phrases mean, so that the code can be compared with
    them. *)
(* ------------------------------------------------------------------ *)

Module SpecReading.

(** The value of a decimal digit. *)
Definition digit (c : ascii) : option nat :=
  let n := nat_of_ascii c in
  if (48 <=? n)%nat && (n <=? 57)%nat then Some (n - 48) else None.

(** Read the decimal number a string starts with; returns the number (if
    there is at least one digit) and the rest of the string. *)
Fixpoint readNat (s : string) (acc : option nat) : option nat * string :=
  match s with
  | EmptyString => (acc, EmptyString)
  | String c s' =>
      match digit c with
      | Some d =>
          readNat s' (Some (10 * match acc with Some a => a | None => 0 end + d))
      | None => (acc, s)
      end
  end.

(** A setup time of the form [lo-hi min], as the pair of its bounds. *)
Definition minutesRange (s : string) : option (nat * nat) :=
  match readNat s None with
  | (Some lo, String sep rest) =>
      if Ascii.eqb sep "-"%char then
        match readNat rest None with
        | (Some hi, unit_) => if unit_ =? " min" then Some (lo, hi) else None
        | (None, _) => None
        end
      else None
  | _ => None
  end.

(** One setup time is longer than another: both are minute ranges and
    both bounds of the first exceed those of the second. *)
Definition longerThan (a b : string) : bool :=
  match minutesRange a, minutesRange b with
  | Some (lo1, hi1), Some (lo2, hi2) => (lo2 <? lo1)%nat && (hi2 <? hi1)%nat
  | _, _ => false
  end.

(** The final segment of a URL: what follows its last slash. *)
Definition lastSegment (repoUrl : string) : string :=
  match pop (split "/"%char repoUrl) with
  | Some seg => seg
  | None => EmptyString
  end.

(** Strip a suffix when the string ends with it. *)
Definition stripTrailing (suffix s : string) : string :=
  if endsWith suffix s
  then substring 0 (String.length s - String.length suffix) s
  else s.

(** The directory name as the specification words it: the final path
    segment without a trailing .git, the placeholder when there is no
    final segment. *)
Definition dirNameSpec (repoUrl : string) : string :=
  let seg := lastSegment repoUrl in
  if truthy seg then stripTrailing ".git" seg else "repo".

(** A language case chooses between command variants keyed on the package
    manager: two specs of that language with the same version get
    different configurations. *)
Definition choosesByPackageManager (lang : string) : Prop :=
  exists s1 s2 : DeviceSpecs,
    language s1 = lang /\ language s2 = lang /\ version s1 = version s2 /\
    getLanguageConfig s1 <> getLanguageConfig s2.

(** A language case interpolates the version into its setup steps: for
    every specs of that language some entry of [envSetup] contains the
    version. *)
Definition versionInSetupSteps (lang : string) : Prop :=
  forall s : DeviceSpecs,
    language s = lang ->
    exists step, In step (Config.envSetup (getLanguageConfig s)) /\
                 includes (version s) step = true.

(** The specification's sentence about the five cases. *)
Definition everyCaseBranchesAndInterpolates : Prop :=
  forall lang, In lang definedLanguages ->
    choosesByPackageManager lang /\ versionInSetupSteps lang.

End SpecReading.

(* ------------------------------------------------------------------ *)
(** ** Invariants of the guide's view *)
(* ------------------------------------------------------------------ *)

Module Invariants.

Import SetupGuide.

(** Every pending timer is due after now and at most the copied duration
    from now. *)
Definition pendingWithin (v : View) : Prop :=
  Forall (fun p => (clock v < fst p <= clock v + copiedDuration)%Z) (timers v).

(** The pending timers are queued in the order of their due times. *)
Definition dueOrdered (v : View) : Prop :=
  StronglySorted Z.le (map fst (timers v)).

(** A label marked copied has a timer pending that will clear it. *)
Definition markHasTimer (v : View) : Prop :=
  copiedCommand v <> None -> timers v <> [].

Definition wellFormed (v : View) : Prop :=
  markHasTimer v /\ pendingWithin v /\ dueOrdered v.

End Invariants.

(* ------------------------------------------------------------------ *)
(** ** Lemmas on the string primitives *)
(* ------------------------------------------------------------------ *)

Section StringFacts.

Lemma startsWith_app (p s : string) : startsWith p (p ++ s) = true.
Proof.
  induction p as [|c p IH]; simpl.
  - reflexivity.
  - now rewrite Ascii.eqb_refl, IH.
Qed.

Lemma includes_prefix (p s : string) : includes p (p ++ s) = true.
Proof.
  destruct (p ++ s) eqn:E; simpl; rewrite <- E, startsWith_app; reflexivity.
Qed.

Lemma append_assoc (a b c : string) : (a ++ b) ++ c = a ++ b ++ c.
Proof. induction a as [|x a IH]; simpl; [reflexivity | now rewrite IH]. Qed.

Lemma includes_cons (needle : string) (c : ascii) (hay : string) :
  includes needle hay = true -> includes needle (String c hay) = true.
Proof.
  intros H. simpl. rewrite H. apply orb_true_r.
Qed.

Lemma includes_app_l (needle pre hay : string) :
  includes needle hay = true -> includes needle (pre ++ hay) = true.
Proof.
  intros H. induction pre as [|c pre IH]; simpl.
  - exact H.
  - rewrite IH. apply orb_true_r.
Qed.

Lemma includes_infix (pre needle post : string) :
  includes needle (pre ++ needle ++ post) = true.
Proof. apply includes_app_l, includes_prefix. Qed.

Lemma truthy_nonempty (s : string) : truthy s = true <-> s <> EmptyString.
Proof.
  destruct s; simpl; split; intros H; congruence.
Qed.

Lemma truthy_and (a b : string) :
  truthy (and_ a b) = truthy a && truthy b.
Proof. unfold and_. destruct (truthy a) eqn:E; simpl; auto. Qed.

Lemma replace_absent (pat rep s : string) :
  includes pat s = false -> replace pat rep s = s.
Proof.
  destruct pat as [|a pat]; [destruct s; discriminate|].
  induction s as [|c s IH]; intros H.
  - reflexivity.
  - cbn [includes] in H. apply orb_false_iff in H. destruct H as [H1 H2].
    cbn [replace]. rewrite H1. f_equal. apply IH. exact H2.
Qed.

End StringFacts.

(* ------------------------------------------------------------------ *)
(** ** The resolver *)
(* ------------------------------------------------------------------ *)

Section Resolver.

Lemma isDefinedLanguage_false (l : string) :
  isDefinedLanguage l = false ->
  (l =? "python") = false /\ (l =? "javascript") = false /\
  (l =? "r") = false /\ (l =? "julia") = false /\ (l =? "rust") = false.
Proof.
  unfold isDefinedLanguage, definedLanguages. cbn [existsb].
  intros H. rewrite !orb_false_iff in H. tauto.
Qed.

Lemma isDefinedLanguage_In (l : string) :
  isDefinedLanguage l = true <-> In l definedLanguages.
Proof.
  unfold isDefinedLanguage. rewrite existsb_exists. split.
  - intros (x & Hx & E). apply String.eqb_eq in E. now subst.
  - intros H. exists l. split; [exact H | apply String.eqb_refl].
Qed.

Lemma getLanguageConfig_default (s : DeviceSpecs) :
  isDefinedLanguage (language s) = false -> getLanguageConfig s = defaultConfig.
Proof.
  intros H. apply isDefinedLanguage_false in H.
  destruct H as (H1 & H2 & H3 & H4 & H5).
  unfold getLanguageConfig. cbv zeta. now rewrite H1, H2, H3, H4, H5.
Qed.

(** The value the promise of [analyzeRepository] is fulfilled with. *)
Lemma analyzeRepository_run (repoUrl : string) (s : DeviceSpecs) (now : Z) :
  analyzeRepository repoUrl s now = ((now + 2000)%Z, Async.Fulfilled (mockResult s)).
Proof. reflexivity. Qed.

Lemma analyzeRepository_fulfils (repoUrl : string) (s : DeviceSpecs) :
  Async.fulfils (analyzeRepository repoUrl s) (mockResult s).
Proof. intros now. exists (now + 2000)%Z. reflexivity. Qed.

Lemma fulfils_unique {A : Type} (m : Async.t A) (v w : A) :
  Async.fulfils m v -> Async.fulfils m w -> v = w.
Proof.
  intros Hv Hw. destruct (Hv 0%Z) as (t1 & E1). destruct (Hw 0%Z) as (t2 & E2).
  congruence.
Qed.

(** The two computed fields read [specs.language] only. *)
Lemma mockResult_time_size (s : DeviceSpecs) :
  estimatedTime (mockResult s)
  = (if language s =? "rust" then "10-15 min"
     else if language s =? "julia" then "8-12 min" else "5-10 min")
  /\ modelSize (mockResult s)
     = (if language s =? "javascript" then "200 MB" else "1.2 GB").
Proof. split; reflexivity. Qed.

(** [mockResult] reads three fields of [specs]. *)
Lemma mockResult_reads (s1 s2 : DeviceSpecs) :
  language s1 = language s2 ->
  version s1 = version s2 ->
  packageManager s1 = packageManager s2 ->
  mockResult s1 = mockResult s2.
Proof.
  intros Hl Hv Hp. unfold mockResult, getLanguageConfig.
  now rewrite Hl, Hv, Hp.
Qed.

(** C1: for every repoUrl and specs the promise of analyzeRepository is
    fulfilled with a bundle, two seconds after the call, and is never
    rejected; when specs.language is none of python, javascript, r, julia,
    rust the bundle carries the fields of the default case: the generic
    techStack, the three commented-out commands, and one-entry envSetup
    and troubleshooting lists. *)
Theorem analyzeRepository_never_fails
    (repoUrl : string) (s : DeviceSpecs) (now : Z) :
  exists bundle : AnalysisResult,
    analyzeRepository repoUrl s now = ((now + 2000)%Z, Async.Fulfilled bundle) /\
    (~ In (language s) definedLanguages ->
     techStack bundle = ["Generic ML Framework"] /\
     venvCommand bundle = "# Environment setup varies by language" /\
     installCommand bundle = "# Install language-specific dependencies" /\
     runCommand bundle = "# Run application" /\
     accessUrl bundle = "http://localhost:8000" /\
     envSetup bundle = ["Configure your development environment"] /\
     troubleshooting bundle
     = ["Check documentation for language-specific issues"]).
Proof.
  exists (mockResult s). split; [reflexivity|].
  intros Hnot.
  assert (Hd : isDefinedLanguage (language s) = false).
  { destruct (isDefinedLanguage (language s)) eqn:E; [|reflexivity].
    apply isDefinedLanguage_In in E. contradiction. }
  unfold mockResult. cbv zeta. cbn [techStack venvCommand installCommand
    runCommand accessUrl envSetup troubleshooting].
  rewrite (getLanguageConfig_default s Hd). repeat split.
Qed.

(** An unknown language at work: the call for the language go. *)
Lemma analyzeRepository_never_fails_witness :
  exists bundle : AnalysisResult,
    analyzeRepository "https://github.com/user/my-repo"
      (mkDeviceSpecs "go" "1.22" "ubuntu" "none" "16gb" "default" false) 0%Z
    = (2000%Z, Async.Fulfilled bundle) /\
    techStack bundle = ["Generic ML Framework"] /\
    runCommand bundle = "# Run application".
Proof.
  destruct (analyzeRepository_never_fails "https://github.com/user/my-repo"
              (mkDeviceSpecs "go" "1.22" "ubuntu" "none" "16gb" "default" false)
              0%Z) as (b & E & H).
  exists b. split; [exact E|].
  assert (Hn : ~ In "go" definedLanguages).
  { simpl. intros [K|[K|[K|[K|[K|[]]]]]]; discriminate K. }
  destruct (H Hn) as (H1 & _ & _ & H4 & _). split; assumption.
Defined.

(** C2: with language python and packageManager conda, the venvCommand of
    the returned bundle is the conda create line for the selected version
    followed by the activate line; so it contains
    conda create -n hf-app python= followed by exactly specs.version. *)
Theorem python_conda_venvCommand (repoUrl : string) (s : DeviceSpecs) :
  language s = "python" ->
  packageManager s = "conda" ->
  exists bundle : AnalysisResult,
    Async.fulfils (analyzeRepository repoUrl s) bundle /\
    venvCommand bundle
    = "conda create -n hf-app python=" ++ version s ++ nl
      ++ "conda activate hf-app" /\
    includes ("conda create -n hf-app python=" ++ version s)
             (venvCommand bundle) = true.
Proof.
  intros Hl Hp. exists (mockResult s).
  split; [apply analyzeRepository_fulfils|].
  assert (E : venvCommand (mockResult s)
              = "conda create -n hf-app python=" ++ version s ++ nl
                ++ "conda activate hf-app").
  { unfold mockResult, getLanguageConfig. cbv zeta. rewrite Hl, Hp.
    reflexivity. }
  split; [exact E|].
  rewrite E, <- append_assoc. apply includes_prefix.
Qed.

Lemma python_conda_venvCommand_witness :
  exists bundle : AnalysisResult,
    Async.fulfils
      (analyzeRepository "https://github.com/user/my-repo"
         (mkDeviceSpecs "python" "3.11" "ubuntu" "none" "16gb" "conda" false))
      bundle /\
    includes "conda create -n hf-app python=3.11" (venvCommand bundle) = true.
Proof.
  destruct (python_conda_venvCommand "https://github.com/user/my-repo"
              (mkDeviceSpecs "python" "3.11" "ubuntu" "none" "16gb" "conda" false)
              eq_refl eq_refl) as (b & F & _ & I).
  exists b. split; [exact F | exact I].
Defined.

(** C3: for each of the five defined languages, whatever the version and
    the package manager, the returned bundle has a non-empty techStack and
    a non-empty runCommand. *)
Theorem defined_language_bundle_nonempty (repoUrl : string) (s : DeviceSpecs) :
  In (language s) definedLanguages ->
  exists bundle : AnalysisResult,
    Async.fulfils (analyzeRepository repoUrl s) bundle /\
    techStack bundle <> [] /\
    runCommand bundle <> EmptyString.
Proof.
  intros Hin. exists (mockResult s).
  split; [apply analyzeRepository_fulfils|].
  destruct s as [l v o g r pm d]. cbn [language] in Hin.
  unfold definedLanguages in Hin. cbn [In] in Hin.
  destruct Hin as [<-|[<-|[<-|[<-|[<-|[]]]]]];
    split; cbn; discriminate.
Qed.

Lemma defined_language_bundle_nonempty_witness :
  exists bundle : AnalysisResult,
    Async.fulfils
      (analyzeRepository "https://github.com/user/my-repo"
         (mkDeviceSpecs "julia" "1.9" "macos" "apple-m1" "32gb" "pkg" true))
      bundle /\
    techStack bundle <> [] /\
    runCommand bundle <> EmptyString.
Proof.
  apply (defined_language_bundle_nonempty "https://github.com/user/my-repo"
           (mkDeviceSpecs "julia" "1.9" "macos" "apple-m1" "32gb" "pkg" true)).
  simpl. right. right. right. left. reflexivity.
Defined.

(** C4: estimatedTime and modelSize of the returned bundle are lookups on
    specs.language alone: modelSize is 200 MB for javascript and 1.2 GB
    for every other language, known or not; estimatedTime is 10-15 min for
    rust, 8-12 min for julia and 5-10 min otherwise, so the time for rust
    or julia is longer (both bounds of the range) than the time for python
    or javascript. *)
Theorem time_and_size_by_language (repoUrl : string) (s : DeviceSpecs) :
  exists bundle : AnalysisResult,
    Async.fulfils (analyzeRepository repoUrl s) bundle /\
    modelSize bundle
    = (if language s =? "javascript" then "200 MB" else "1.2 GB") /\
    estimatedTime bundle
    = (if language s =? "rust" then "10-15 min"
       else if language s =? "julia" then "8-12 min" else "5-10 min") /\
    (language s = "rust" \/ language s = "julia" ->
     forall (repoUrl' : string) (s' : DeviceSpecs) (bundle' : AnalysisResult),
       language s' = "python" \/ language s' = "javascript" ->
       Async.fulfils (analyzeRepository repoUrl' s') bundle' ->
       SpecReading.longerThan (estimatedTime bundle) (estimatedTime bundle')
       = true).
Proof.
  exists (mockResult s).
  destruct (mockResult_time_size s) as [Et Es].
  split; [apply analyzeRepository_fulfils|].
  split; [exact Es|]. split; [exact Et|].
  intros Hslow repoUrl' s' bundle' Hfast F'.
  rewrite (fulfils_unique _ _ _ F' (analyzeRepository_fulfils repoUrl' s')).
  rewrite Et. destruct (mockResult_time_size s') as [Et' _]. rewrite Et'.
  destruct Hslow as [-> | ->]; destruct Hfast as [-> | ->]; reflexivity.
Qed.

Lemma time_and_size_by_language_witness :
  exists rustBundle pythonBundle : AnalysisResult,
    Async.fulfils
      (analyzeRepository "https://github.com/user/my-repo"
         (mkDeviceSpecs "rust" "1.75" "ubuntu" "none" "16gb" "cargo" false))
      rustBundle /\
    Async.fulfils
      (analyzeRepository "https://github.com/user/other"
         (mkDeviceSpecs "python" "3.12" "macos" "none" "8gb" "pip" false))
      pythonBundle /\
    modelSize rustBundle = "1.2 GB" /\
    SpecReading.longerThan (estimatedTime rustBundle)
                           (estimatedTime pythonBundle) = true.
Proof.
  destruct (time_and_size_by_language "https://github.com/user/my-repo"
              (mkDeviceSpecs "rust" "1.75" "ubuntu" "none" "16gb" "cargo" false))
    as (rb & F & Hs & _ & Hl).
  exists rb, (mockResult
                (mkDeviceSpecs "python" "3.12" "macos" "none" "8gb" "pip" false)).
  split; [exact F|]. split; [apply analyzeRepository_fulfils|].
  split; [exact Hs|].
  apply (Hl (or_introl eq_refl) "https://github.com/user/other"
            (mkDeviceSpecs "python" "3.12" "macos" "none" "8gb" "pip" false)).
  - left. reflexivity.
  - apply analyzeRepository_fulfils.
Defined.

(** C10: two calls of analyzeRepository whose specs agree on language,
    version and packageManager are fulfilled with the same bundle after
    the same delay, whatever the two repoUrl, os, gpu, ram and docker
    values are. *)
Theorem analyzeRepository_ignores_url_and_hardware
    (repoUrl1 repoUrl2 : string) (s1 s2 : DeviceSpecs) :
  language s1 = language s2 ->
  version s1 = version s2 ->
  packageManager s1 = packageManager s2 ->
  (forall now,
     analyzeRepository repoUrl1 s1 now = analyzeRepository repoUrl2 s2 now) /\
  exists bundle : AnalysisResult,
    Async.fulfils (analyzeRepository repoUrl1 s1) bundle /\
    Async.fulfils (analyzeRepository repoUrl2 s2) bundle.
Proof.
  intros Hl Hv Hp.
  pose proof (mockResult_reads s1 s2 Hl Hv Hp) as E. split.
  - intros now. rewrite !analyzeRepository_run. now rewrite E.
  - exists (mockResult s1). split; [apply analyzeRepository_fulfils|].
    rewrite E. apply analyzeRepository_fulfils.
Qed.

Lemma analyzeRepository_ignores_url_and_hardware_witness :
  exists bundle : AnalysisResult,
    Async.fulfils
      (analyzeRepository "https://github.com/user/my-repo"
         (mkDeviceSpecs "javascript" "20" "ubuntu" "none" "8gb" "yarn" false))
      bundle /\
    Async.fulfils
      (analyzeRepository "https://example.org/other.git"
         (mkDeviceSpecs "javascript" "20" "windows11" "nvidia-rtx-4090" "128gb"
            "yarn" true))
      bundle.
Proof.
  apply (analyzeRepository_ignores_url_and_hardware
           "https://github.com/user/my-repo" "https://example.org/other.git"
           (mkDeviceSpecs "javascript" "20" "ubuntu" "none" "8gb" "yarn" false)
           (mkDeviceSpecs "javascript" "20" "windows11" "nvidia-rtx-4090" "128gb"
              "yarn" true)
           eq_refl eq_refl eq_refl).
Defined.

(** The r case returns one configuration, whatever the specs say. *)
Lemma getLanguageConfig_r_constant (s1 s2 : DeviceSpecs) :
  language s1 = "r" -> language s2 = "r" ->
  getLanguageConfig s1 = getLanguageConfig s2.
Proof.
  intros L1 L2. unfold getLanguageConfig. cbv zeta. now rewrite L1, L2.
Qed.

(** Apart from the language, the configuration reads the version and the
    package manager only. *)
Lemma getLanguageConfig_reads (s1 s2 : DeviceSpecs) :
  language s1 = language s2 ->
  version s1 = version s2 ->
  packageManager s1 = packageManager s2 ->
  getLanguageConfig s1 = getLanguageConfig s2.
Proof.
  intros Hl Hv Hp. unfold getLanguageConfig. now rewrite Hl, Hv, Hp.
Qed.

(** The julia and rust cases do not read the package manager. *)
Lemma getLanguageConfig_single_variant (s1 s2 : DeviceSpecs) :
  language s1 = "julia" \/ language s1 = "rust" ->
  language s2 = language s1 ->
  version s2 = version s1 ->
  getLanguageConfig s1 = getLanguageConfig s2.
Proof.
  intros Hl L2 V. unfold getLanguageConfig. cbv zeta. rewrite L2, V.
  destruct Hl as [-> | ->]; reflexivity.
Qed.

(** C8, as the specification states it, fails: the r case has a single
    command variant, the same for every package manager. *)
Lemma not_every_case_branches_and_interpolates :
  ~ SpecReading.everyCaseBranchesAndInterpolates.
Proof.
  intros H.
  destruct (H "r") as [(s1 & s2 & L1 & L2 & _ & Ne) _].
  - simpl. right. right. left. reflexivity.
  - apply Ne. apply getLanguageConfig_r_constant; assumption.
Qed.

(** C8 (amended): only the python and javascript cases choose between two
    command variants keyed on packageManager: conda against anything else,
    yarn against anything else, for venvCommand and installCommand. The r,
    julia and rust cases return one configuration per version for every
    packageManager. The version is interpolated into the first envSetup
    step in the javascript, julia and rust cases; in the python case it
    appears in venvCommand under conda and in no setup step (its four
    steps are fixed texts); the r case does not use it. Each case is given
    in full, so nothing else in a configuration depends on the package
    manager or on the version. *)
Theorem variants_and_version_by_case :
  (forall s, language s = "python" ->
     Config.venvCommand (getLanguageConfig s)
     = (if packageManager s =? "conda"
        then "conda create -n hf-app python=" ++ version s ++ nl
             ++ "conda activate hf-app"
        else "python -m venv hf-app" ++ nl
             ++ "source hf-app/bin/activate  # On Windows: hf-app\Scripts\activate") /\
     Config.installCommand (getLanguageConfig s)
     = (if packageManager s =? "conda"
        then "conda install pytorch transformers gradio -c pytorch -c huggingface"
        else "pip install torch transformers gradio accelerate")) /\
  (forall s, language s = "javascript" ->
     Config.venvCommand (getLanguageConfig s)
     = (if packageManager s =? "yarn" then "yarn init -y" else "npm init -y") /\
     Config.installCommand (getLanguageConfig s)
     = (if packageManager s =? "yarn"
        then "yarn add @huggingface/transformers @huggingface/hub express"
        else "npm install @huggingface/transformers @huggingface/hub express")) /\
  SpecReading.choosesByPackageManager "python" /\
  SpecReading.choosesByPackageManager "javascript" /\
  ~ SpecReading.choosesByPackageManager "r" /\
  ~ SpecReading.choosesByPackageManager "julia" /\
  ~ SpecReading.choosesByPackageManager "rust" /\
  (forall s, language s = "javascript" ->
     hd_error (Config.envSetup (getLanguageConfig s))
     = Some ("Ensure Node.js " ++ version s ++ " is installed")) /\
  (forall s, language s = "julia" ->
     hd_error (Config.envSetup (getLanguageConfig s))
     = Some ("Ensure Julia " ++ version s ++ " is installed")) /\
  (forall s, language s = "rust" ->
     hd_error (Config.envSetup (getLanguageConfig s))
     = Some ("Ensure Rust " ++ version s ++ " is installed")) /\
  SpecReading.versionInSetupSteps "javascript" /\
  SpecReading.versionInSetupSteps "julia" /\
  SpecReading.versionInSetupSteps "rust" /\
  ~ SpecReading.versionInSetupSteps "python" /\
  ~ SpecReading.versionInSetupSteps "r" /\
  (forall s1 s2, language s1 = "r" -> language s2 = "r" ->
     getLanguageConfig s1 = getLanguageConfig s2) /\
  (forall s, language s = "python" ->
     getLanguageConfig s
     = Config.mk
         ["Transformers"; "Gradio"; "PyTorch"; "NumPy"]
         (if packageManager s =? "conda"
          then "conda create -n hf-app python=" ++ version s ++ nl
               ++ "conda activate hf-app"
          else "python -m venv hf-app" ++ nl
               ++ "source hf-app/bin/activate  # On Windows: hf-app\Scripts\activate")
         (if packageManager s =? "conda"
          then "conda install pytorch transformers gradio -c pytorch -c huggingface"
          else "pip install torch transformers gradio accelerate")
         "python app.py"
         "http://localhost:7860"
         ["Ensure you have at least 4GB of free disk space for models";
          "Set CUDA_VISIBLE_DEVICES if you have multiple GPUs";
          "Configure Hugging Face token if using gated models";
          "Install Git LFS for large model files if needed"]
         ["If CUDA out of memory, try reducing batch size or model precision";
          "For slow downloads, consider using a mirror or cache";
          "On Windows, you might need Visual Studio Build Tools";
          "For M1/M2 Macs, use MPS backend for acceleration"]) /\
  (forall s, language s = "javascript" ->
     getLanguageConfig s
     = Config.mk
         ["Transformers.js"; "Node.js"; "Express"; "TensorFlow.js"]
         (if packageManager s =? "yarn" then "yarn init -y" else "npm init -y")
         (if packageManager s =? "yarn"
          then "yarn add @huggingface/transformers @huggingface/hub express"
          else "npm install @huggingface/transformers @huggingface/hub express")
         "node server.js"
         "http://localhost:3000"
         ["Ensure Node.js " ++ version s ++ " is installed";
          "Install dependencies with your package manager";
          "Configure environment variables in .env file";
          "Set up CORS if accessing from browser"]
         ["If WebGPU not available, models will fallback to CPU";
          "Large models may require significant RAM";
          "Use model quantization for better performance";
          "Check browser compatibility for WebGL/WebGPU"]) /\
  (forall s, language s = "r" ->
     getLanguageConfig s
     = Config.mk
         ["reticulate"; "torch"; "transformers (via Python)"; "Shiny"]
         ("# R environment setup" ++ nl ++ "install.packages('renv')" ++ nl
          ++ "renv::init()")
         ("install.packages(c(" ++ dq ++ "reticulate" ++ dq ++ ", " ++ dq
          ++ "shiny" ++ dq ++ "))" ++ nl ++ "reticulate::py_install(c(" ++ dq
          ++ "torch" ++ dq ++ ", " ++ dq ++ "transformers" ++ dq ++ "))")
         "Rscript app.R"
         "http://localhost:3838"
         ["Install R and required packages";
          "Configure reticulate to use Python environment";
          "Install Python dependencies via reticulate";
          "Set up Shiny server for web interface"]
         ["Ensure Python and R can communicate via reticulate";
          "Install system dependencies for torch compilation";
          "Configure PATH variables for Python/R integration";
          "Use virtual environments to avoid conflicts"]) /\
  (forall s, language s = "julia" ->
     getLanguageConfig s
     = Config.mk
         ["MLJ.jl"; "Transformers.jl"; "Flux.jl"; "PlutoUI"]
         ("julia --project=." ++ nl ++ "using Pkg" ++ nl ++ "Pkg.activate(" ++ dq
          ++ "." ++ dq ++ ")")
         ("Pkg.add([" ++ dq ++ "MLJ" ++ dq ++ ", " ++ dq ++ "Transformers" ++ dq
          ++ ", " ++ dq ++ "Flux" ++ dq ++ ", " ++ dq ++ "PlutoUI" ++ dq ++ "])")
         "julia app.jl"
         "http://localhost:8000"
         ["Ensure Julia " ++ version s ++ " is installed";
          "Create and activate project environment";
          "Install required Julia packages";
          "Configure CUDA.jl for GPU support if available"]
         ["Precompile packages to reduce startup time";
          "Use BinaryBuilder.jl for system dependencies";
          "Configure JULIA_NUM_THREADS for parallelization";
          "Check CUDA installation for GPU acceleration"]) /\
  (forall s, language s = "rust" ->
     getLanguageConfig s
     = Config.mk
         ["Candle"; "Tokenizers"; "Axum"; "Serde"]
         ("cargo init hf-app" ++ nl ++ "cd hf-app")
         "cargo add candle-core candle-nn tokenizers axum serde"
         "cargo run"
         "http://localhost:8080"
         ["Ensure Rust " ++ version s ++ " is installed";
          "Initialize Cargo project";
          "Add required dependencies to Cargo.toml";
          "Configure features for CUDA support if needed"]
         ["Compile with --release flag for better performance";
          "Install CUDA toolkit for GPU support";
          "Use cross-compilation for different targets";
          "Enable LTO for smaller binaries"]).
Proof.
  assert (Hstep : forall lang label,
             (forall s, language s = lang ->
                hd_error (Config.envSetup (getLanguageConfig s))
                = Some (label ++ version s ++ " is installed")) ->
             SpecReading.versionInSetupSteps lang).
  { intros lang label Hhd s L. specialize (Hhd s L).
    exists (label ++ version s ++ " is installed"). split.
    - destruct (Config.envSetup (getLanguageConfig s)) as [|x xs];
        [discriminate|]. injection Hhd as ->. left. reflexivity.
    - apply includes_infix. }
  assert (Hjs : forall s, language s = "javascript" ->
            hd_error (Config.envSetup (getLanguageConfig s))
            = Some ("Ensure Node.js " ++ version s ++ " is installed")).
  { intros s L. unfold getLanguageConfig. cbv zeta. rewrite L. reflexivity. }
  assert (Hjl : forall s, language s = "julia" ->
            hd_error (Config.envSetup (getLanguageConfig s))
            = Some ("Ensure Julia " ++ version s ++ " is installed")).
  { intros s L. unfold getLanguageConfig. cbv zeta. rewrite L. reflexivity. }
  assert (Hrs : forall s, language s = "rust" ->
            hd_error (Config.envSetup (getLanguageConfig s))
            = Some ("Ensure Rust " ++ version s ++ " is installed")).
  { intros s L. unfold getLanguageConfig. cbv zeta. rewrite L. reflexivity. }
  repeat match goal with |- _ /\ _ => split end.
  - intros s L. unfold getLanguageConfig. cbv zeta. rewrite L. split; reflexivity.
  - intros s L. unfold getLanguageConfig. cbv zeta. rewrite L. split; reflexivity.
  - exists (mkDeviceSpecs "python" "3.11" "ubuntu" "none" "16gb" "conda" false),
           (mkDeviceSpecs "python" "3.11" "ubuntu" "none" "16gb" "pip" false).
    repeat split. intros E. apply (f_equal Config.installCommand) in E.
    vm_compute in E. discriminate E.
  - exists (mkDeviceSpecs "javascript" "20" "ubuntu" "none" "16gb" "yarn" false),
           (mkDeviceSpecs "javascript" "20" "ubuntu" "none" "16gb" "npm" false).
    repeat split. intros E. apply (f_equal Config.venvCommand) in E.
    vm_compute in E. discriminate E.
  - intros (s1 & s2 & L1 & L2 & _ & Ne). apply Ne.
    apply getLanguageConfig_r_constant; assumption.
  - intros (s1 & s2 & L1 & L2 & V & Ne). apply Ne.
    apply getLanguageConfig_single_variant; [left; exact L1 | congruence | congruence].
  - intros (s1 & s2 & L1 & L2 & V & Ne). apply Ne.
    apply getLanguageConfig_single_variant; [right; exact L1 | congruence | congruence].
  - exact Hjs.
  - exact Hjl.
  - exact Hrs.
  - exact (Hstep _ _ Hjs).
  - exact (Hstep _ _ Hjl).
  - exact (Hstep _ _ Hrs).
  - intros H.
    destruct (H (mkDeviceSpecs "python" "3.11" "ubuntu" "none" "16gb" "conda" false)
                eq_refl) as (step & Hin & Hinc).
    cbn in Hin. destruct Hin as [<-|[<-|[<-|[<-|[]]]]];
      vm_compute in Hinc; discriminate Hinc.
  - intros H.
    destruct (H (mkDeviceSpecs "r" "4.3" "ubuntu" "none" "16gb" "renv" false)
                eq_refl) as (step & Hin & Hinc).
    cbn in Hin. destruct Hin as [<-|[<-|[<-|[<-|[]]]]];
      vm_compute in Hinc; discriminate Hinc.
  - exact getLanguageConfig_r_constant.
  - intros s L. unfold getLanguageConfig. cbv zeta. rewrite L. reflexivity.
  - intros s L. unfold getLanguageConfig. cbv zeta. rewrite L. reflexivity.
  - intros s L. unfold getLanguageConfig. cbv zeta. rewrite L. reflexivity.
  - intros s L. unfold getLanguageConfig. cbv zeta. rewrite L. reflexivity.
  - intros s L. unfold getLanguageConfig. cbv zeta. rewrite L. reflexivity.
Qed.

Lemma variants_and_version_by_case_witness :
  Config.venvCommand
    (getLanguageConfig
       (mkDeviceSpecs "javascript" "18" "debian" "none" "8gb" "pnpm" false))
  = "npm init -y" /\
  hd_error
    (Config.envSetup
       (getLanguageConfig
          (mkDeviceSpecs "rust" "stable" "arch" "none" "8gb" "cargo" false)))
  = Some "Ensure Rust stable is installed" /\
  Config.envSetup
    (getLanguageConfig
       (mkDeviceSpecs "python" "3.11" "ubuntu" "none" "16gb" "pip" false))
  = ["Ensure you have at least 4GB of free disk space for models";
     "Set CUDA_VISIBLE_DEVICES if you have multiple GPUs";
     "Configure Hugging Face token if using gated models";
     "Install Git LFS for large model files if needed"].
Proof.
  destruct variants_and_version_by_case
    as (_ & Hjs & _ & _ & _ & _ & _ & _ & _ & Hrs & _ & _ & _ & _ & _ & _
        & Hpy & _).
  split; [|split].
  - apply (Hjs (mkDeviceSpecs "javascript" "18" "debian" "none" "8gb" "pnpm" false)
               eq_refl).
  - apply (Hrs (mkDeviceSpecs "rust" "stable" "arch" "none" "8gb" "cargo" false)
               eq_refl).
  - rewrite (Hpy (mkDeviceSpecs "python" "3.11" "ubuntu" "none" "16gb" "pip" false)
                 eq_refl).
    reflexivity.
Defined.

End Resolver.

(* ------------------------------------------------------------------ *)
(** ** The form *)
(* ------------------------------------------------------------------ *)

Section Form.

Import SetupForm.

Lemma requiredChain_truthy (st : State) :
  truthy (requiredChain st) = true <-> allSet st.
Proof.
  unfold requiredChain, allSet. cbv zeta.
  rewrite !truthy_and, !andb_true_iff, !truthy_nonempty. tauto.
Qed.

Lemma requiredChain_falsy (st : State) :
  truthy (requiredChain st) = false <-> ~ allSet st.
Proof.
  rewrite <- requiredChain_truthy.
  destruct (truthy (requiredChain st)); split; intros H; congruence.
Qed.

(** C6: selecting a language, from any prior form state, stores the
    selected value and sets version and packageManager to the empty
    string; repoUrl, os, gpu, ram and docker keep their values. *)
Theorem language_change_resets_dependent_fields (value : string) (st : State) :
  let st' := onLanguageChange value st in
  language (specs st') = value /\
  version (specs st') = EmptyString /\
  packageManager (specs st') = EmptyString /\
  repoUrl st' = repoUrl st /\
  os (specs st') = os (specs st) /\
  gpu (specs st') = gpu (specs st) /\
  ram (specs st') = ram (specs st) /\
  docker (specs st') = docker (specs st).
Proof. cbv zeta. repeat split. Qed.

(** C7: the submit button is enabled exactly when repoUrl, language,
    version, os and ram are all non-empty and no analysis is loading;
    handleSubmit calls the analyzer exactly when those five are non-empty.
    With one of them empty the button is disabled and handleSubmit only
    prevents the default action. packageManager and gpu are not read. *)
Theorem submit_enabled_iff_required_fields (st : State) (isLoading : bool) :
  (submitDisabled st isLoading = false <-> allSet st /\ isLoading = false) /\
  (invokesAnalyzer (handleSubmit st) = true <-> allSet st) /\
  (allSet st ->
   handleSubmit st = [PreventDefault; OnAnalyze (repoUrl st) (specs st)]) /\
  (~ allSet st ->
   submitDisabled st isLoading = true /\
   invokesAnalyzer (handleSubmit st) = false /\
   handleSubmit st = [PreventDefault]).
Proof.
  pose proof (requiredChain_truthy st) as Ht.
  pose proof (requiredChain_falsy st) as Hf.
  unfold submitDisabled, isFormValid, handleSubmit, invokesAnalyzer.
  destruct (truthy (requiredChain st)) eqn:E; cbn [negb orb existsb].
  - destruct Ht as [Ht _]. specialize (Ht eq_refl).
    split; [|split; [|split]].
    + split; [intros ->; split; [exact Ht | reflexivity] | intros [_ ->]; reflexivity].
    + split; [intros _; exact Ht | reflexivity].
    + reflexivity.
    + intros Hn. contradiction.
  - destruct Hf as [Hf _]. specialize (Hf eq_refl).
    split; [|split; [|split]].
    + split; [discriminate | intros [Hall _]; contradiction].
    + split; [discriminate | intros Hall; contradiction].
    + intros Hall. contradiction.
    + intros _. repeat split.
Qed.

(** A form with the five required fields set and neither a package
    manager nor a GPU chosen: the button is enabled and the analyzer is
    called. *)
Lemma submit_enabled_iff_required_fields_witness :
  submitDisabled
    (mkState "https://github.com/user/my-repo"
       (mkDeviceSpecs "python" "3.11" "ubuntu" EmptyString "16gb" EmptyString false))
    false = false /\
  handleSubmit
    (mkState "https://github.com/user/my-repo"
       (mkDeviceSpecs "python" "3.11" "ubuntu" EmptyString "16gb" EmptyString false))
  = [PreventDefault;
     OnAnalyze "https://github.com/user/my-repo"
       (mkDeviceSpecs "python" "3.11" "ubuntu" EmptyString "16gb" EmptyString false)].
Proof.
  destruct (submit_enabled_iff_required_fields
              (mkState "https://github.com/user/my-repo"
                 (mkDeviceSpecs "python" "3.11" "ubuntu" EmptyString "16gb"
                    EmptyString false))
              false) as (Hen & _ & Hcall & _).
  assert (Hall : allSet
                   (mkState "https://github.com/user/my-repo"
                      (mkDeviceSpecs "python" "3.11" "ubuntu" EmptyString "16gb"
                         EmptyString false)))
    by (repeat split; discriminate).
  split.
  - apply Hen. split; [exact Hall | reflexivity].
  - apply Hcall. exact Hall.
Defined.

End Form.

(* ------------------------------------------------------------------ *)
(** ** The guide *)
(* ------------------------------------------------------------------ *)

Section Guide.

Import SetupGuide.

Lemma pop_split (sep : ascii) (s : string) :
  exists seg, pop (split sep s) = Some seg.
Proof.
  induction s as [|c s (seg & IH)]; cbn [split].
  - exists EmptyString. reflexivity.
  - destruct (split sep s) as [|x xs] eqn:E; [discriminate IH|].
    destruct (Ascii.eqb c sep).
    + exists seg. exact IH.
    + destruct xs as [|y ys].
      * exists (String c x). reflexivity.
      * exists seg. exact IH.
Qed.

Lemma startsWith_refl (s : string) : startsWith s s = true.
Proof.
  induction s as [|c s IH]; simpl; [reflexivity|].
  now rewrite Ascii.eqb_refl, IH.
Qed.

Lemma endsWith_includes (p s : string) :
  endsWith p s = true -> includes p s = true.
Proof.
  induction s as [|c s IH]; cbn [endsWith includes]; intros H;
    apply orb_true_iff in H; destruct H as [H|H].
  - apply String.eqb_eq in H. subst p. reflexivity.
  - discriminate H.
  - apply String.eqb_eq in H. subst p. now rewrite startsWith_refl.
  - rewrite (IH H). apply orb_true_r.
Qed.

(** Where the final segment holds no .git at all, the code and the
    specification's wording give the same directory name. *)
Lemma dirName_agrees_without_dot_git (repoUrl : string) :
  includes ".git" (SpecReading.lastSegment repoUrl) = false ->
  dirName repoUrl = SpecReading.dirNameSpec repoUrl.
Proof.
  unfold dirName, SpecReading.dirNameSpec, SpecReading.lastSegment.
  destruct (pop_split "/"%char repoUrl) as (seg & ->). cbn [option_map or_].
  intros H. rewrite (replace_absent _ _ _ H).
  unfold SpecReading.stripTrailing.
  destruct (endsWith ".git" seg) eqn:E; [|reflexivity].
  apply endsWith_includes in E. congruence.
Qed.

(** C5: on https://github.com/user/my-repo, with or without a trailing
    .git, the directory name is my-repo, and a URL that ends with a slash
    gets the placeholder repo. But the code removes the first .git found
    anywhere in the final segment, not a trailing suffix: for the final
    segment user.github.io the cd line names userhub.io, where stripping a
    trailing .git leaves user.github.io. *)
Theorem dirName_removes_first_dot_git :
  dirName "https://github.com/user/my-repo" = "my-repo" /\
  dirName "https://github.com/user/my-repo.git" = "my-repo" /\
  dirName "https://github.com/user/my-repo/" = "repo" /\
  dirName "https://github.com/user/user.github.io" = "userhub.io" /\
  SpecReading.dirNameSpec "https://github.com/user/user.github.io"
  = "user.github.io" /\
  cloneCommand "https://github.com/user/user.github.io"
  = "git clone https://github.com/user/user.github.io" ++ nl ++ "cd userhub.io".
Proof. repeat split; vm_compute; reflexivity. Qed.

(** Running due callbacks: every callback clears the copied mark. *)
Lemma fold_runCallback (due : list (Z * TimerCallback)) (v : View) :
  copiedCommand (fold_left (fun acc p => runCallback (snd p) acc) due v)
  = match due with
    | [] => copiedCommand v
    | _ :: _ => None
    end.
Proof.
  revert v. induction due as [|[d cb] due IH]; intros v; cbn [fold_left].
  - reflexivity.
  - rewrite IH. destruct due; destruct cb; reflexivity.
Qed.

Lemma copiedCommand_advance (dt : Z) (v : View) :
  copiedCommand (advance dt v)
  = match filter (isDue (clock v + dt)%Z) (timers v) with
    | [] => copiedCommand v
    | _ :: _ => None
    end.
Proof.
  unfold advance. cbv zeta. rewrite fold_runCallback.
  destruct (filter (isDue (clock v + dt)%Z) (timers v)); reflexivity.
Qed.

Lemma showsCopied_none (v : View) :
  copiedCommand v = None -> forall title, showsCopied v title = false.
Proof. intros H title. unfold showsCopied. now rewrite H. Qed.

(** C9: copyToClipboard with the clipboard as a capability. When
    writeText succeeds, the label is the copied one at once (no time has
    passed), the success toast (Copied to clipboard, with the label in its
    description and no destructive variant) is emitted, and one clearing
    timer is queued for 2000 ms later; once 2000 ms have elapsed no label
    is marked copied, and when no earlier timer is pending the mark stays
    until then. When writeText fails, the copied state and the timers are
    left as they were and the error toast (Failed to copy, variant
    destructive) is emitted. *)
Theorem copyToClipboard_outcomes
    (writeText : string -> WriteResult) (text label : string) (v : View) :
  let v' := copyToClipboard writeText text label v in
  (writeText text = WriteOk ->
   copiedCommand v' = Some label /\
   showsCopied v' label = true /\
   clock v' = clock v /\
   toasts v'
   = (toasts v
      ++ [ {| title := "Copied to clipboard";
              description := label ++ " command copied successfully";
              variant := None |} ])%list /\
   timers v' = (timers v ++ [((clock v + 2000)%Z, ClearCopied)])%list /\
   (forall dt, (2000 <= dt)%Z ->
      copiedCommand (advance dt v') = None /\
      forall title, showsCopied (advance dt v') title = false) /\
   (timers v = [] ->
    forall dt, (dt < 2000)%Z ->
      copiedCommand (advance dt v') = Some label /\
      showsCopied (advance dt v') label = true)) /\
  (forall err, writeText text = WriteErr err ->
   copiedCommand v' = copiedCommand v /\
   (forall title, showsCopied v' title = showsCopied v title) /\
   timers v' = timers v /\
   clock v' = clock v /\
   toasts v'
   = (toasts v
      ++ [ {| title := "Failed to copy";
              description := "Could not copy to clipboard";
              variant := Some "destructive" |} ])%list).
Proof.
  cbv zeta. unfold copyToClipboard. split.
  - intros ->. cbv zeta.
    split; [reflexivity|]. split; [apply String.eqb_refl|].
    split; [reflexivity|]. split; [reflexivity|]. split; [reflexivity|].
    split.
    + intros dt Hdt.
      assert (E : copiedCommand
                    (advance dt
                       (setTimeout ClearCopied copiedDuration
                          (toast (copiedToast label)
                             (setCopiedCommand (Some label)
                                (setClipboard text v))))) = None).
      { rewrite copiedCommand_advance. cbn [setTimeout timers clock toast
          setCopiedCommand setClipboard].
        rewrite filter_app. cbn [filter]. unfold isDue at 2. cbn [fst].
        replace (clock v + copiedDuration <=? clock v + dt)%Z with true
          by (symmetry; apply Z.leb_le; unfold copiedDuration; lia).
        destruct (filter (isDue (clock v + dt)%Z) (timers v)); reflexivity. }
      split; [exact E | apply showsCopied_none; exact E].
    + intros Hnone dt Hdt.
      assert (E : copiedCommand
                    (advance dt
                       (setTimeout ClearCopied copiedDuration
                          (toast (copiedToast label)
                             (setCopiedCommand (Some label)
                                (setClipboard text v))))) = Some label).
      { rewrite copiedCommand_advance.
        cbn [setTimeout timers clock toast setCopiedCommand setClipboard
             copiedCommand].
        rewrite Hnone. cbn [app filter]. unfold isDue. cbn [fst].
        replace (clock v + copiedDuration <=? clock v + dt)%Z with false
          by (symmetry; apply Z.leb_gt; unfold copiedDuration; lia).
        reflexivity. }
      split; [exact E|]. unfold showsCopied. rewrite E.
      apply String.eqb_refl.
  - intros err ->. repeat split.
Qed.

(** A first copy that succeeds and a copy that fails, from the initial
    view. *)
Lemma copyToClipboard_outcomes_witness :
  showsCopied
    (copyToClipboard (fun _ => WriteOk) "cargo run" "Run Application" initialView)
    "Run Application" = true /\
  copiedCommand
    (advance 1999
       (copyToClipboard (fun _ => WriteOk) "cargo run" "Run Application"
          initialView)) = Some "Run Application" /\
  copiedCommand
    (advance 2000
       (copyToClipboard (fun _ => WriteOk) "cargo run" "Run Application"
          initialView)) = None /\
  copiedCommand
    (copyToClipboard (fun _ => WriteErr "NotAllowedError") "cargo run"
       "Run Application" initialView) = None /\
  toasts
    (copyToClipboard (fun _ => WriteErr "NotAllowedError") "cargo run"
       "Run Application" initialView)
  = [ {| title := "Failed to copy";
         description := "Could not copy to clipboard";
         variant := Some "destructive" |} ].
Proof.
  destruct (copyToClipboard_outcomes (fun _ => WriteOk) "cargo run"
              "Run Application" initialView) as [Hok _].
  destruct (Hok eq_refl) as (_ & Hshow & _ & _ & _ & Hclear & Hstay).
  destruct (copyToClipboard_outcomes (fun _ => WriteErr "NotAllowedError")
              "cargo run" "Run Application" initialView) as [_ Herr].
  destruct (Herr "NotAllowedError" eq_refl) as (Hsame & _ & _ & _ & Htoast).
  split; [exact Hshow|]. split; [|split; [|split]].
  - apply (Hstay eq_refl 1999%Z). lia.
  - apply (Hclear 2000%Z). lia.
  - exact Hsame.
  - exact Htoast.
Defined.

End Guide.

(* ------------------------------------------------------------------ *)
(** ** More on the directory name of the clone command *)
(* ------------------------------------------------------------------ *)

Section DirName.

Import SetupGuide.

Lemma has_cons (c b : ascii) (s : string) :
  includes (String c EmptyString) (String b s)
  = Ascii.eqb c b || includes (String c EmptyString) s.
Proof. cbn [includes startsWith]. now rewrite andb_true_r. Qed.

Lemma split_nonempty (sep : ascii) (s : string) :
  split sep s <> [].
Proof.
  destruct s as [|b s]; cbn [split]; [discriminate|].
  destruct (Ascii.eqb b sep); [discriminate|].
  destruct (split sep s); discriminate.
Qed.

Lemma split_app (sep : ascii) (a b : string) :
  split sep (a ++ String sep b) = (split sep a ++ split sep b)%list.
Proof.
  induction a as [|c a IH]; cbn [append split].
  - now rewrite Ascii.eqb_refl.
  - rewrite IH. destruct (Ascii.eqb c sep); [reflexivity|].
    destruct (split sep a) as [|h r] eqn:E; [|reflexivity].
    exfalso. exact (split_nonempty sep a E).
Qed.

Lemma pop_app (l1 l2 : list string) :
  l2 <> [] -> pop (l1 ++ l2)%list = pop l2.
Proof.
  intros Hne. induction l1 as [|x l1 IH]; [reflexivity|].
  cbn [app pop]. rewrite IH.
  destruct (l1 ++ l2)%list eqn:E; [|reflexivity].
  apply app_eq_nil in E. destruct E as [_ E]. contradiction.
Qed.

Lemma split_without_sep (sep : ascii) (s : string) :
  includes (String sep EmptyString) s = false -> split sep s = [s].
Proof.
  induction s as [|c s IH]; [reflexivity|].
  rewrite has_cons. intros H. apply orb_false_iff in H. destruct H as [H1 H2].
  cbn [split]. rewrite Ascii.eqb_sym, H1, (IH H2). reflexivity.
Qed.

Lemma split_segments_without_sep (sep : ascii) (s : string) :
  Forall (fun seg => includes (String sep EmptyString) seg = false)
         (split sep s).
Proof.
  induction s as [|c s IH]; cbn [split].
  - constructor; [reflexivity | constructor].
  - destruct (Ascii.eqb c sep) eqn:E.
    + constructor; [reflexivity | exact IH].
    + destruct (split sep s) as [|h r]; [constructor; [|constructor]|].
      * rewrite has_cons, Ascii.eqb_sym, E. reflexivity.
      * inversion IH as [|? ? Hh Hr]; subst. constructor; [|exact Hr].
        rewrite has_cons, Ascii.eqb_sym, E. exact Hh.
Qed.

Lemma pop_In (l : list string) (x : string) : pop l = Some x -> In x l.
Proof.
  induction l as [|y l IH]; [discriminate|].
  cbn [pop]. destruct l as [|z l].
  - intros [= ->]. left. reflexivity.
  - intros H. right. apply IH. exact H.
Qed.

Lemma drop_without (c : ascii) (n : nat) (s : string) :
  includes (String c EmptyString) s = false ->
  includes (String c EmptyString) (drop n s) = false.
Proof.
  revert s. induction n as [|n IH]; intros s H; [destruct s; exact H|].
  destruct s as [|b s]; [exact H|].
  cbn [drop]. apply IH. rewrite has_cons in H.
  apply orb_false_iff in H. tauto.
Qed.

Lemma replace_without (c : ascii) (pat s : string) :
  includes (String c EmptyString) s = false ->
  includes (String c EmptyString) (replace pat EmptyString s) = false.
Proof.
  induction s as [|b s IH]; intros H.
  - cbn [replace]. destruct (startsWith pat EmptyString); [|exact H].
    cbn [append]. now apply drop_without.
  - cbn [replace]. destruct (startsWith pat (String b s)).
    + cbn [append]. now apply drop_without.
    + rewrite has_cons in *. apply orb_false_iff in H. destruct H as [H1 H2].
      now rewrite H1, (IH H2).
Qed.

(** An occurrence of .git in [s] followed by .git starts inside [s]: the
    dot of the suffix cannot be the g, the i or the t of an occurrence. *)
Lemma startsWith_dot_git_app (s : string) :
  s <> EmptyString ->
  startsWith ".git" s = false -> startsWith ".git" (s ++ ".git") = false.
Proof.
  intros Hne. destruct s as [|a [|b [|c [|d s]]]]; [contradiction| | | |];
    cbn;
    repeat match goal with
           | |- context [Ascii.eqb ?x ?y] => destruct (Ascii.eqb x y); cbn
           end;
    intros; congruence.
Qed.

Lemma replace_dot_git_suffix (s : string) :
  includes ".git" s = false -> replace ".git" EmptyString (s ++ ".git") = s.
Proof.
  induction s as [|c s IH]; intros H; [reflexivity|].
  cbn [includes] in H. apply orb_false_iff in H. destruct H as [H1 H2].
  change (String c s ++ ".git") with (String c (s ++ ".git")).
  cbn [replace].
  change (String c (s ++ ".git")) with (String c s ++ ".git") at 1.
  rewrite (startsWith_dot_git_app (String c s)) by (discriminate || exact H1).
  now rewrite (IH H2).
Qed.

Lemma dirName_of_segment (base seg : string) :
  includes "/" seg = false ->
  dirName (base ++ "/" ++ seg)
  = or_ (Some (replace ".git" EmptyString seg)) "repo".
Proof.
  intros H. unfold dirName.
  change (base ++ "/" ++ seg) with (base ++ String "/"%char seg).
  rewrite split_app, pop_app by apply split_nonempty.
  now rewrite (split_without_sep _ _ H).
Qed.

Lemma includes_char_app (c : ascii) (a b : string) :
  includes (String c EmptyString) (a ++ b)
  = includes (String c EmptyString) a || includes (String c EmptyString) b.
Proof.
  induction a as [|x a IH].
  - cbn [append]. destruct b; reflexivity.
  - change (String x a ++ b) with (String x (a ++ b)).
    now rewrite !has_cons, IH, orb_assoc.
Qed.

(** X1: the directory name of the cd line is never empty, whatever the
    URL is (the empty URL included). *)
Theorem dirName_never_empty (repoUrl : string) :
  dirName repoUrl <> EmptyString.
Proof.
  unfold dirName. destruct (pop_split "/"%char repoUrl) as (seg & ->).
  cbn [option_map or_].
  destruct (truthy (replace ".git" EmptyString seg)) eqn:E.
  - now apply truthy_nonempty.
  - discriminate.
Qed.

(** X2: the directory name of the cd line never holds a slash. *)
Theorem dirName_without_slash (repoUrl : string) :
  includes "/" (dirName repoUrl) = false.
Proof.
  unfold dirName. destruct (pop_split "/"%char repoUrl) as (seg & E).
  rewrite E. cbn [option_map or_].
  destruct (truthy (replace ".git" EmptyString seg)); [|reflexivity].
  apply replace_without.
  pose proof (split_segments_without_sep "/"%char repoUrl) as F.
  rewrite Forall_forall in F. apply F. apply pop_In. exact E.
Qed.

(** X3: a URL that ends with a slash gets the placeholder name repo,
    whatever precedes the slash. *)
Theorem dirName_trailing_slash (repoUrl : string) :
  dirName (repoUrl ++ "/") = "repo".
Proof.
  change (repoUrl ++ "/") with (repoUrl ++ "/" ++ EmptyString).
  rewrite dirName_of_segment by reflexivity. reflexivity.
Qed.

(** X4: for a repository name that is not empty and holds neither a slash
    nor .git, the directory name is that name, both for the URL that ends
    with the name and for the URL that ends with the name followed by
    .git. *)
Theorem dirName_strips_dot_git_suffix (base name : string) :
  name <> EmptyString ->
  includes "/" name = false ->
  includes ".git" name = false ->
  dirName (base ++ "/" ++ name) = name /\
  dirName (base ++ "/" ++ name ++ ".git") = name.
Proof.
  intros Hne Hslash Hgit.
  apply truthy_nonempty in Hne. split.
  - rewrite dirName_of_segment by exact Hslash.
    rewrite (replace_absent _ _ _ Hgit). cbn [or_]. now rewrite Hne.
  - rewrite dirName_of_segment
      by (rewrite includes_char_app, Hslash; reflexivity).
    rewrite (replace_dot_git_suffix _ Hgit). cbn [or_]. now rewrite Hne.
Qed.

Lemma dirName_strips_dot_git_suffix_witness :
  dirName ("https://github.com/huggingface" ++ "/" ++ "transformers")
  = "transformers" /\
  dirName ("https://github.com/huggingface" ++ "/" ++ "transformers" ++ ".git")
  = "transformers".
Proof.
  apply (dirName_strips_dot_git_suffix "https://github.com/huggingface"
           "transformers"); [discriminate | reflexivity | reflexivity].
Defined.

End DirName.

(* ------------------------------------------------------------------ *)
(** ** Sequences of clicks and waits on the guide *)
(* ------------------------------------------------------------------ *)

Section GuideRuns.

Import SetupGuide Invariants.

Lemma fold_runCallback_frame (due : list (Z * TimerCallback)) (v : View) :
  let v' := fold_left (fun acc p => runCallback (snd p) acc) due v in
  clock v' = clock v /\ timers v' = timers v /\
  toasts v' = toasts v /\ clipboardText v' = clipboardText v.
Proof.
  revert v. induction due as [|[d cb] due IH]; intros v; cbn [fold_left].
  - repeat split.
  - destruct (IH (runCallback (snd (d, cb)) v)) as (H1 & H2 & H3 & H4).
    cbv zeta. rewrite H1, H2, H3, H4. destruct cb. repeat split.
Qed.

Lemma advance_frame (dt : Z) (v : View) :
  clock (advance dt v) = (clock v + dt)%Z /\
  timers (advance dt v)
  = filter (fun p => negb (isDue (clock v + dt)%Z p)) (timers v) /\
  toasts (advance dt v) = toasts v /\
  clipboardText (advance dt v) = clipboardText v.
Proof.
  unfold advance. cbv zeta.
  match goal with
  | |- context [fold_left ?f ?l ?v0] =>
      destruct (fold_runCallback_frame l v0) as (H1 & H2 & H3 & H4)
  end.
  cbv zeta in H1, H2, H3, H4. rewrite H1, H2, H3, H4. repeat split.
Qed.

Lemma filter_none_keeps_all {A : Type} (f : A -> bool) (l : list A) :
  filter f l = [] -> filter (fun x => negb (f x)) l = l.
Proof.
  induction l as [|a l IH]; [reflexivity|].
  cbn [filter]. destruct (f a); [discriminate|].
  intros H. cbn [negb]. now rewrite (IH H).
Qed.

Lemma filter_keeps_all {A : Type} (f : A -> bool) (l : list A) :
  Forall (fun x => f x = true) l -> filter f l = l.
Proof.
  induction 1 as [|a l Ha _ IH]; [reflexivity|].
  cbn [filter]. now rewrite Ha, IH.
Qed.

Lemma sorted_filter (f : Z * TimerCallback -> bool) (l : list (Z * TimerCallback)) :
  StronglySorted Z.le (map fst l) ->
  StronglySorted Z.le (map fst (filter f l)).
Proof.
  induction l as [|a l IH]; intros H; [constructor|].
  cbn [map] in H. apply StronglySorted_inv in H. destruct H as [Hs Ha].
  cbn [filter]. destruct (f a); [|now apply IH].
  cbn [map]. constructor; [now apply IH|].
  rewrite Forall_forall in *. intros x Hx. apply Ha.
  apply in_map_iff in Hx. destruct Hx as (q & <- & Hq).
  apply filter_In in Hq. apply in_map. tauto.
Qed.

Lemma sorted_snoc (l : list (Z * TimerCallback)) (d : Z) (cb : TimerCallback) :
  StronglySorted Z.le (map fst l) ->
  Forall (fun p => (fst p <= d)%Z) l ->
  StronglySorted Z.le (map fst (l ++ [(d, cb)])).
Proof.
  induction l as [|a l IH]; intros Hs Hb.
  - cbn. constructor; constructor.
  - cbn [map app] in *. apply StronglySorted_inv in Hs. destruct Hs as [Hs Ha].
    inversion Hb as [|? ? Hda Hbl]; subst.
    constructor; [now apply IH|].
    rewrite map_app. apply Forall_app. split; [exact Ha|].
    constructor; [exact Hda | constructor].
Qed.

Lemma wellFormed_initial : wellFormed initialView.
Proof.
  split; [|split].
  - intros H. now contradiction H.
  - constructor.
  - constructor.
Qed.

Lemma wellFormed_step (e : GuideEvent) (v : View) :
  wellFormed v -> wellFormed (step e v).
Proof.
  intros (Hm & Hp & Hs). destruct e as [[|err] text label | ms].
  - (* a copy that succeeds *)
    cbn [step copyToClipboard]. split; [|split].
    + intros _. cbn. intros E. apply app_eq_nil in E. destruct E as [_ E].
      discriminate E.
    + unfold pendingWithin in *. cbn. apply Forall_app. split; [exact Hp|].
      constructor; [cbn [fst]; unfold copiedDuration; lia | constructor].
    + unfold dueOrdered in *. cbn. apply sorted_snoc; [exact Hs|].
      unfold pendingWithin in Hp. rewrite Forall_forall in *.
      intros p Hin. specialize (Hp p Hin). lia.
  - (* a copy that fails *)
    cbn [step copyToClipboard]. split; [|split]; assumption.
  - (* time passes *)
    cbn [step].
    destruct (advance_frame (Z.of_N ms) v) as (Hc & Ht & _ & _).
    pose proof (copiedCommand_advance (Z.of_N ms) v) as Hcc.
    split; [|split].
    + unfold markHasTimer. rewrite Hcc, Ht.
      destruct (filter (isDue (clock v + Z.of_N ms)%Z) (timers v)) eqn:E;
        [|intros H; now contradiction H].
      intros H. rewrite (filter_none_keeps_all _ _ E). now apply Hm.
    + unfold pendingWithin in *. rewrite Hc, Ht.
      rewrite Forall_forall in *. intros p Hin.
      apply filter_In in Hin. destruct Hin as [Hin Hnd].
      specialize (Hp p Hin). unfold isDue in Hnd.
      apply negb_true_iff, Z.leb_gt in Hnd. lia.
    + unfold dueOrdered in *. rewrite Ht. now apply sorted_filter.
Qed.

Lemma wellFormed_run (events : list GuideEvent) (v : View) :
  wellFormed v -> wellFormed (run events v).
Proof.
  revert v. induction events as [|e events IH]; intros v H; [exact H|].
  cbn [run fold_left]. apply IH. now apply wellFormed_step.
Qed.

(** X5: after any sequence of clicks (succeeding or failing) and waits
    from the initial view, once the copied duration passes with no further
    click, no label is marked copied: a mark never outlives 2000 ms of
    quiet. *)
Theorem copied_mark_cleared_after_quiet (events : list GuideEvent) (dt : Z) :
  (copiedDuration <= dt)%Z ->
  copiedCommand (advance dt (run events initialView)) = None.
Proof.
  intros Hdt.
  destruct (wellFormed_run events initialView wellFormed_initial)
    as (Hm & Hp & _).
  set (v := run events initialView) in *.
  rewrite copiedCommand_advance.
  destruct (filter (isDue (clock v + dt)%Z) (timers v)) eqn:E; [|reflexivity].
  destruct (copiedCommand v) eqn:Ec; [|reflexivity].
  exfalso. apply Hm; [rewrite Ec; discriminate|].
  rewrite <- E. symmetry. apply filter_keeps_all.
  unfold pendingWithin in Hp. rewrite Forall_forall in *.
  intros p Hin. specialize (Hp p Hin). unfold isDue. apply Z.leb_le. lia.
Qed.

Lemma copied_mark_cleared_after_quiet_witness :
  copiedCommand
    (advance 2000
       (run [Click WriteOk "cargo run" "Start Application"; Elapse 1500;
             Click (WriteErr "denied") "x" "Install Dependencies";
             Click WriteOk "npm init -y" "Create Virtual Environment"]
            initialView)) = None.
Proof.
  apply (copied_mark_cleared_after_quiet
           [Click WriteOk "cargo run" "Start Application"; Elapse 1500;
            Click (WriteErr "denied") "x" "Install Dependencies";
            Click WriteOk "npm init -y" "Create Virtual Environment"]
           2000%Z).
  unfold copiedDuration. lia.
Defined.

(** X6: after any sequence of clicks and waits from the initial view, the
    pending timers are queued in the order of their due times, and each
    is due later than now and at most 2000 ms from now. *)
Theorem timers_ordered_and_bounded (events : list GuideEvent) :
  dueOrdered (run events initialView) /\
  pendingWithin (run events initialView).
Proof.
  destruct (wellFormed_run events initialView wellFormed_initial)
    as (_ & Hp & Hs).
  split; assumption.
Qed.

(** X7: a timer is not cancelled by a later copy. When a second copy
    succeeds less than 2000 ms after a first one, its label is marked at
    once, and the first copy's timer clears that mark when it fires, less
    than 2000 ms after the second copy. *)
Theorem second_copy_cleared_by_first_timer
    (v : View) (textA a textB b : string) (dt1 : Z) :
  timers v = [] ->
  (0 < dt1 < copiedDuration)%Z ->
  let v1 := copyToClipboard (fun _ => WriteOk) textA a v in
  let v3 := copyToClipboard (fun _ => WriteOk) textB b (advance dt1 v1) in
  let v4 := advance (copiedDuration - dt1) v3 in
  copiedCommand v3 = Some b /\
  copiedCommand v4 = None /\
  (clock v4 - clock v3 < copiedDuration)%Z.
Proof.
  intros Hnone Hdt. cbv zeta.
  set (v1 := copyToClipboard (fun _ => WriteOk) textA a v).
  assert (Ht1 : timers v1 = [((clock v + copiedDuration)%Z, ClearCopied)])
    by (unfold v1; cbn; now rewrite Hnone).
  assert (Hc1 : clock v1 = clock v) by reflexivity.
  destruct (advance_frame dt1 v1) as (Hc2 & Ht2 & _ & _).
  rewrite Ht1, Hc1 in Ht2. rewrite Hc1 in Hc2.
  cbn [filter] in Ht2. unfold isDue in Ht2. cbn [fst] in Ht2.
  replace (clock v + copiedDuration <=? clock v + dt1)%Z with false in Ht2
    by (symmetry; apply Z.leb_gt; lia).
  cbn [negb] in Ht2.
  remember (advance dt1 v1) as v2 eqn:Ev2 in *.
  set (v3 := copyToClipboard (fun _ => WriteOk) textB b v2).
  assert (Ht3 : timers v3
                = [((clock v + copiedDuration)%Z, ClearCopied);
                   ((clock v + dt1 + copiedDuration)%Z, ClearCopied)])
    by (unfold v3; cbn; now rewrite Ht2, Hc2).
  assert (Hc3 : clock v3 = (clock v + dt1)%Z) by (unfold v3; cbn; exact Hc2).
  split; [reflexivity|]. split.
  - rewrite copiedCommand_advance, Ht3, Hc3. cbn [filter].
    unfold isDue at 1. cbn [fst].
    replace (clock v + copiedDuration
             <=? clock v + dt1 + (copiedDuration - dt1))%Z with true
      by (symmetry; apply Z.leb_le; lia).
    reflexivity.
  - destruct (advance_frame (copiedDuration - dt1) v3) as (Hc4 & _).
    rewrite Hc4. lia.
Qed.

Lemma second_copy_cleared_by_first_timer_witness :
  copiedCommand
    (advance 500
       (copyToClipboard (fun _ => WriteOk) "cargo run" "Start Application"
          (advance 1500
             (copyToClipboard (fun _ => WriteOk) "cargo init" "Create Virtual Environment"
                initialView)))) = None.
Proof.
  destruct (second_copy_cleared_by_first_timer initialView
              "cargo init" "Create Virtual Environment"
              "cargo run" "Start Application" 1500%Z eq_refl)
    as (_ & H & _).
  - unfold copiedDuration. lia.
  - exact H.
Defined.

(** X8: every click on a copy button emits exactly one toast, whether the
    clipboard accepts the text or not, and passing time emits none: after
    a sequence of events the number of toasts has grown by the number of
    clicks. *)
Theorem one_toast_per_click (events : list GuideEvent) (v : View) :
  List.length (toasts (run events v))
  = (List.length (toasts v) + List.length (filter isClick events))%nat.
Proof.
  revert v. induction events as [|e events IH]; intros v.
  - cbn. lia.
  - cbn [run fold_left]. fold (run events (step e v)). rewrite IH.
    destruct e as [[|err] text label | ms]; cbn [isClick filter List.length].
    + cbn. rewrite length_app. cbn. lia.
    + cbn. rewrite length_app. cbn. lia.
    + cbn [step]. destruct (advance_frame (Z.of_N ms) v) as (_ & _ & Ht & _).
      rewrite Ht. lia.
Qed.

(** X9: after a click on the copy button of one of the four code blocks
    that the clipboard accepts, the clipboard holds that block's command
    and, among the four blocks, exactly the clicked one shows the copied
    mark. *)
Theorem exactly_clicked_block_shows_copied
    (repoUrl : string) (r : AnalysisResult) (v : View)
    (block other : string * string) :
  In block (codeBlocks repoUrl r) ->
  In other (codeBlocks repoUrl r) ->
  let v' := clickCopy (fun _ => WriteOk) block v in
  clipboardText v' = Some (snd block) /\
  (showsCopied v' (fst other) = true <-> other = block).
Proof.
  intros Hb Ho. cbv zeta. split; [reflexivity|].
  unfold codeBlocks in Hb, Ho. cbn [In] in Hb, Ho.
  destruct Hb as [<-|[<-|[<-|[<-|[]]]]];
    destruct Ho as [<-|[<-|[<-|[<-|[]]]]];
    cbn; split; intros H; try reflexivity; try discriminate H.
Qed.

Lemma exactly_clicked_block_shows_copied_witness :
  showsCopied
    (clickCopy (fun _ => WriteOk)
       ("Start Application",
        runCommand
          (mockResult (mkDeviceSpecs "rust" "stable" "arch" "none" "8gb" "cargo" false)))
       initialView)
    "Start Application" = true.
Proof.
  apply (exactly_clicked_block_shows_copied "https://github.com/user/my-repo"
           (mockResult (mkDeviceSpecs "rust" "stable" "arch" "none" "8gb" "cargo" false))
           initialView
           ("Start Application",
            runCommand
              (mockResult
                 (mkDeviceSpecs "rust" "stable" "arch" "none" "8gb" "cargo" false)))
           ("Start Application",
            runCommand
              (mockResult
                 (mkDeviceSpecs "rust" "stable" "arch" "none" "8gb" "cargo" false)))).
  - right. right. right. left. reflexivity.
  - right. right. right. left. reflexivity.
  - reflexivity.
Defined.

End GuideRuns.

(* ------------------------------------------------------------------ *)
(** ** More on the form *)
(* ------------------------------------------------------------------ *)

Section FormMore.

Import SetupForm.

(** X10: right after a language is selected the form cannot be
    submitted, whatever it held before: the button is disabled and
    handleSubmit does not call the analyzer, because the version was
    reset. *)
Theorem language_change_blocks_submit
    (value : string) (st : State) (isLoading : bool) :
  submitDisabled (onLanguageChange value st) isLoading = true /\
  handleSubmit (onLanguageChange value st) = [PreventDefault].
Proof.
  assert (E : truthy (requiredChain (onLanguageChange value st)) = false).
  { apply requiredChain_falsy. intros (_ & _ & Hv & _). now apply Hv. }
  unfold submitDisabled, isFormValid, handleSubmit. rewrite E. split; reflexivity.
Qed.

(** X11: choosing, from any form state, a language, then a version, an
    operating system, a RAM size and a URL (none of them empty) enables
    the submit button, and the submit hands the analyzer those values with
    the GPU and Docker choices the form held and an empty package
    manager. *)
Theorem filling_in_order_enables_submit (st : State) (l v o r u : string) :
  l <> EmptyString -> v <> EmptyString -> o <> EmptyString ->
  r <> EmptyString -> u <> EmptyString ->
  let st' :=
    onRepoUrlChange u
      (onRamChange r (onOsChange o (onVersionChange v (onLanguageChange l st))))
  in
  submitDisabled st' false = false /\
  handleSubmit st'
  = [PreventDefault;
     OnAnalyze u
       {| language := l; version := v; os := o; gpu := gpu (specs st);
          ram := r; packageManager := EmptyString;
          docker := docker (specs st) |}].
Proof.
  intros Hl Hv Ho Hr Hu. cbv zeta.
  set (st' := onRepoUrlChange u _).
  assert (E : truthy (requiredChain st') = true).
  { apply requiredChain_truthy. repeat split; assumption. }
  unfold submitDisabled, isFormValid, handleSubmit. rewrite E.
  split; reflexivity.
Qed.

Lemma filling_in_order_enables_submit_witness :
  handleSubmit
    (onRepoUrlChange "https://github.com/user/my-repo"
       (onRamChange "16gb"
          (onOsChange "ubuntu"
             (onVersionChange "3.11" (onLanguageChange "python" initial)))))
  = [PreventDefault;
     OnAnalyze "https://github.com/user/my-repo"
       (mkDeviceSpecs "python" "3.11" "ubuntu" "none" "16gb" EmptyString false)].
Proof.
  apply (filling_in_order_enables_submit initial "python" "3.11" "ubuntu"
           "16gb" "https://github.com/user/my-repo");
    discriminate.
Defined.

(** X12: the version select offers at least one version exactly when the
    selected language is one of the five defined ones (for any other
    value, the empty initial one included, it offers none); the
    package-manager select always offers at least one entry. *)
Theorem options_by_language (st : State) :
  (getVersionOptions st <> [] <-> In (language (specs st)) definedLanguages) /\
  getPackageManagerOptions st <> [].
Proof.
  unfold getVersionOptions, getPackageManagerOptions. cbv zeta.
  rewrite <- isDefinedLanguage_In.
  unfold isDefinedLanguage, definedLanguages. cbn [existsb].
  destruct (language (specs st) =? "python");
    [split; [split; [reflexivity | discriminate] | discriminate]|].
  destruct (language (specs st) =? "javascript");
    [split; [split; [reflexivity | discriminate] | discriminate]|].
  destruct (language (specs st) =? "r");
    [split; [split; [reflexivity | discriminate] | discriminate]|].
  destruct (language (specs st) =? "julia");
    [split; [split; [reflexivity | discriminate] | discriminate]|].
  destruct (language (specs st) =? "rust");
    [split; [split; [reflexivity | discriminate] | discriminate]|].
  split; [split; [intros H; now contradiction H | discriminate] | discriminate].
Qed.

(** X13: in every form state the values of the offered versions are
    pairwise distinct, and so are the values of the offered package
    managers (they are the keys of the rendered items). *)
Theorem option_values_unique (st : State) :
  NoDup (map fst (getVersionOptions st)) /\
  NoDup (map fst (getPackageManagerOptions st)).
Proof.
  unfold getVersionOptions, getPackageManagerOptions. cbv zeta.
  destruct (language (specs st) =? "python");
    [|destruct (language (specs st) =? "javascript");
      [|destruct (language (specs st) =? "r");
        [|destruct (language (specs st) =? "julia");
          [|destruct (language (specs st) =? "rust")]]]];
    split; cbn [map fst];
    repeat (constructor; [cbn [In]; intuition discriminate|]);
    constructor.
Qed.

(** X14: the Docker select round-trips: choosing the item whose value is
    the one displayed leaves the form state as it is, and a chosen value
    turns docker on exactly when it is the string true. *)
Theorem docker_select_round_trip (st : State) (value : string) :
  onDockerChange (dockerSelectValue st) st = st /\
  (docker (specs (onDockerChange value st)) = true <-> value = "true").
Proof.
  split.
  - destruct st as [u [l v o g r pm d]]. unfold onDockerChange, dockerSelectValue.
    cbn. destruct d; reflexivity.
  - cbn. apply String.eqb_eq.
Qed.

End FormMore.

(* ------------------------------------------------------------------ *)
(** ** More on the resolver *)
(* ------------------------------------------------------------------ *)

Section ResolverMore.

Lemma eqb_false_of_neq (a b : string) : a <> b -> (a =? b) = false.
Proof. apply String.eqb_neq. Qed.

(** X15: the only package-manager values the resolver tells apart are
    conda and yarn: two calls whose specs agree on language and version
    and whose package managers are both neither conda nor yarn (pip,
    mamba, poetry, npm, pnpm, bun, an unset one, ...) end alike, with the
    same bundle. *)
Theorem other_package_managers_share_a_bundle
    (repoUrl1 repoUrl2 : string) (s1 s2 : DeviceSpecs) (now : Z) :
  language s1 = language s2 ->
  version s1 = version s2 ->
  packageManager s1 <> "conda" -> packageManager s1 <> "yarn" ->
  packageManager s2 <> "conda" -> packageManager s2 <> "yarn" ->
  analyzeRepository repoUrl1 s1 now = analyzeRepository repoUrl2 s2 now /\
  mockResult s1 = mockResult s2.
Proof.
  intros Hl Hv Hc1 Hy1 Hc2 Hy2.
  assert (E : mockResult s1 = mockResult s2).
  { unfold mockResult, getLanguageConfig. cbv zeta. rewrite Hl, Hv.
    rewrite (eqb_false_of_neq _ _ Hc1), (eqb_false_of_neq _ _ Hy1),
            (eqb_false_of_neq _ _ Hc2), (eqb_false_of_neq _ _ Hy2).
    reflexivity. }
  split; [|exact E]. rewrite !analyzeRepository_run. now rewrite E.
Qed.

Lemma other_package_managers_share_a_bundle_witness :
  mockResult (mkDeviceSpecs "python" "3.12" "ubuntu" "none" "16gb" "mamba" false)
  = mockResult (mkDeviceSpecs "python" "3.12" "macos" "apple-m1" "8gb" "poetry" true).
Proof.
  apply (other_package_managers_share_a_bundle
           "https://github.com/user/a" "https://github.com/user/b"
           (mkDeviceSpecs "python" "3.12" "ubuntu" "none" "16gb" "mamba" false)
           (mkDeviceSpecs "python" "3.12" "macos" "apple-m1" "8gb" "poetry" true)
           0%Z eq_refl eq_refl);
    discriminate.
Defined.

(** X16: every bundle the resolver returns, for known and unknown
    languages alike, can be rendered in full: the access URL is a
    localhost URL, the tech stack, the setup steps and the
    troubleshooting tips are not empty, none of the three commands is
    empty, and of the three alternatives the first two are rendered with
    a link and the third without. *)
Theorem every_bundle_is_renderable (s : DeviceSpecs) :
  startsWith "http://localhost:" (accessUrl (mockResult s)) = true /\
  techStack (mockResult s) <> [] /\
  envSetup (mockResult s) <> [] /\
  troubleshooting (mockResult s) <> [] /\
  venvCommand (mockResult s) <> EmptyString /\
  installCommand (mockResult s) <> EmptyString /\
  runCommand (mockResult s) <> EmptyString /\
  map SetupGuide.hasLink (alternatives (mockResult s)) = [true; true; false].
Proof.
  destruct s as [l v o g r pm d].
  unfold mockResult, getLanguageConfig. cbv zeta.
  cbn [language version packageManager].
  destruct (l =? "python");
    [destruct (pm =? "conda")
    |destruct (l =? "javascript");
      [destruct (pm =? "yarn")
      |destruct (l =? "r");
        [|destruct (l =? "julia"); [|destruct (l =? "rust")]]]];
    cbn; repeat split; discriminate.
Qed.

Lemma append_length (a b : string) :
  String.length (a ++ b) = (String.length a + String.length b)%nat.
Proof. induction a as [|c a IH]; cbn; [reflexivity | now rewrite IH]. Qed.

Lemma append_cancel_l (p a b : string) : p ++ a = p ++ b -> a = b.
Proof.
  induction p as [|c p IH]; cbn; intros H; [exact H|].
  injection H as H. now apply IH.
Qed.

Lemma append_cancel_r (a b r : string) : a ++ r = b ++ r -> a = b.
Proof.
  revert b. induction a as [|c a IH]; intros [|d b] H.
  - reflexivity.
  - apply (f_equal String.length) in H. cbn in H.
    rewrite append_length in H. lia.
  - apply (f_equal String.length) in H. cbn in H.
    rewrite append_length in H. lia.
  - cbn in H. injection H as -> H. f_equal. now apply IH.
Qed.

(** X17: the first revision of the resolver is the python case of the
    current one at version 3.10. Carrying old specs over (language
    python, version the old python field) gives the old bundle exactly
    when the package manager is not conda or the python version is 3.10:
    the first revision ignored the selected version, the current one puts
    it into the conda command. *)
Theorem legacy_bundle_is_python_3_10 (old : Legacy.DeviceSpecs) :
  Legacy.mockResult old
  = mockResult
      {| language := "python"; version := "3.10"; os := Legacy.os old;
         gpu := Legacy.gpu old; ram := Legacy.ram old;
         packageManager := Legacy.packageManager old;
         docker := Legacy.docker old |} /\
  (mockResult (upgradeSpecs old) = Legacy.mockResult old
   <-> Legacy.packageManager old <> "conda" \/ Legacy.python old = "3.10").
Proof.
  destruct old as [o py g r pm d].
  unfold Legacy.mockResult, mockResult, getLanguageConfig, upgradeSpecs.
  cbv zeta.
  cbn [language version packageManager Legacy.packageManager Legacy.python
       Legacy.os Legacy.gpu Legacy.ram Legacy.docker].
  change ("python" =? "python") with true.
  change ("python" =? "rust") with false.
  change ("python" =? "julia") with false.
  change ("python" =? "javascript") with false.
  cbv iota.
  cbn [Config.techStack Config.venvCommand Config.installCommand
       Config.runCommand Config.accessUrl Config.envSetup Config.troubleshooting].
  split; [destruct (pm =? "conda"); reflexivity|].
  destruct (pm =? "conda") eqn:E.
  - apply String.eqb_eq in E. subst pm. split.
    + intros H. right. apply (f_equal venvCommand) in H. cbn [venvCommand] in H.
      change ("conda create -n hf-app python=3.10" ++ nl ++ "conda activate hf-app")
        with ("conda create -n hf-app python=" ++ "3.10" ++ nl
              ++ "conda activate hf-app") in H.
      apply append_cancel_l in H. now apply append_cancel_r in H.
    + intros [H | ->]; [now contradiction H | reflexivity].
  - apply String.eqb_neq in E. split; [intros _; left; exact E | reflexivity].
Qed.

End ResolverMore.

(* ------------------------------------------------------------------ *)
(** ** The page *)
(* ------------------------------------------------------------------ *)

Section PageFlow.

Import Index.

(** X18: whatever the awaited analyzer does, handleAnalyze ends with the
    loading flag cleared and the current repository set to the submitted
    URL. When the analyzer is fulfilled the result is stored and nothing
    is logged; when it is rejected the stored result is left as it was
    and the reason is logged. While the analyzer is awaited the loading
    flag is set, so the form's submit button is disabled. *)
Theorem handleAnalyze_settles
    (analyze : string -> DeviceSpecs -> Async.t AnalysisResult)
    (repoUrl : string) (s : DeviceSpecs) (p : Page) (now : Z)
    (st : SetupForm.State) :
  let p' := fst (handleAnalyzeWith analyze repoUrl s p now) in
  isLoading p' = false /\
  currentRepo p' = repoUrl /\
  snd (handleAnalyzeWith analyze repoUrl s p now) = fst (analyze repoUrl s now) /\
  match snd (analyze repoUrl s now) with
  | Async.Fulfilled result =>
      analysisResult p' = Some result /\ consoleErrors p' = consoleErrors p
  | Async.Rejected reason =>
      analysisResult p' = analysisResult p /\
      consoleErrors p' = (consoleErrors p ++ [reason])%list
  end /\
  SetupForm.submitDisabled st (isLoading (handleAnalyzePending repoUrl p)) = true.
Proof.
  cbv zeta. unfold handleAnalyzeWith.
  destruct (analyze repoUrl s now) as [later [result | reason]]; cbn;
    repeat split; apply orb_true_r.
Qed.

(** X19: starting a new analysis after an analysis has settled brings the
    page back to the form: no result, an empty current repository, the
    loading flag cleared. *)
Theorem new_analysis_returns_to_form
    (analyze : string -> DeviceSpecs -> Async.t AnalysisResult)
    (repoUrl : string) (s : DeviceSpecs) (p : Page) (now : Z) :
  let p' := handleNewAnalysis (fst (handleAnalyzeWith analyze repoUrl s p now)) in
  showsGuide p' = false /\
  analysisResult p' = None /\
  currentRepo p' = EmptyString /\
  isLoading p' = false /\
  (consoleErrors p = [] ->
   snd (analyze repoUrl s now) = Async.Fulfilled (mockResult s) ->
   p' = initialPage).
Proof.
  cbv zeta. unfold handleAnalyzeWith.
  destruct (analyze repoUrl s now) as [later [result | reason]]; cbn;
    repeat split; intros He Hf; try discriminate Hf.
  unfold handleNewAnalysis, setCurrentRepo, setAnalysisResult, initialPage.
  cbn. now rewrite He.
Qed.

Lemma new_analysis_returns_to_form_witness :
  handleNewAnalysis
    (fst (handleAnalyze "https://github.com/user/my-repo"
            (mkDeviceSpecs "julia" "1.9" "macos" "apple-m1" "32gb" "pkg" true)
            initialPage 0%Z))
  = initialPage.
Proof.
  destruct (new_analysis_returns_to_form analyzeRepository
              "https://github.com/user/my-repo"
              (mkDeviceSpecs "julia" "1.9" "macos" "apple-m1" "32gb" "pkg" true)
              initialPage 0%Z) as (_ & _ & _ & _ & H).
  apply H; reflexivity.
Defined.

(** X20: a submit of the form, followed to the end of the analysis. With
    the five required fields set, 2000 ms later the page shows the guide
    for the submitted URL and specs: its first block is the clone command
    of the form's URL, the loading flag is cleared and nothing was logged.
    With a required field empty, the page and the clock are untouched. *)
Theorem submit_leads_to_guide (st : SetupForm.State) (p : Page) (now : Z) :
  (SetupForm.allSet st ->
   onFormSubmit st p now
   = ({| analysisResult := Some (mockResult (SetupForm.specs st));
         currentRepo := SetupForm.repoUrl st;
         isLoading := false;
         consoleErrors := consoleErrors p |}, (now + 2000)%Z) /\
   showsGuide (fst (onFormSubmit st p now)) = true /\
   guideBlocks (fst (onFormSubmit st p now))
   = SetupGuide.codeBlocks (SetupForm.repoUrl st)
       (mockResult (SetupForm.specs st)) /\
   hd_error (guideBlocks (fst (onFormSubmit st p now)))
   = Some ("Clone Repository",
           SetupGuide.cloneCommand (SetupForm.repoUrl st))) /\
  (~ SetupForm.allSet st -> onFormSubmit st p now = (p, now)).
Proof.
  unfold onFormSubmit, SetupForm.handleSubmit. split.
  - intros Hall. apply requiredChain_truthy in Hall. rewrite Hall.
    repeat split.
  - intros Hnot. apply requiredChain_falsy in Hnot. rewrite Hnot. reflexivity.
Qed.

Lemma submit_leads_to_guide_witness :
  onFormSubmit
    (SetupForm.mkState "https://github.com/user/my-repo"
       (mkDeviceSpecs "rust" "1.75" "ubuntu" "none" "16gb" "cargo" false))
    initialPage 0%Z
  = ({| analysisResult :=
          Some (mockResult
                  (mkDeviceSpecs "rust" "1.75" "ubuntu" "none" "16gb" "cargo" false));
        currentRepo := "https://github.com/user/my-repo";
        isLoading := false;
        consoleErrors := [] |}, 2000%Z).
Proof.
  destruct (submit_leads_to_guide
              (SetupForm.mkState "https://github.com/user/my-repo"
                 (mkDeviceSpecs "rust" "1.75" "ubuntu" "none" "16gb" "cargo" false))
              initialPage 0%Z) as [H _].
  apply H. repeat split; discriminate.
Defined.

End PageFlow.
